(** * NordVPN WireGuard config generator: a shallow embedding of [main.py]

    The Python script is embedded function by function.  Python objects
    decoded from JSON are values of type [value]; built-ins the script
    relies on ([str.strip], [str.lower], [in], [dict.get], truthiness,
    [int()], format specifications, [textwrap.dedent], [list.sort]) are
    written out as Rocq functions.  Code that can raise returns a
    [result]; code that talks to the terminal, the network or the file
    system runs in the monad [M] over an explicit [world].

    Scope of the model.  Characters are the code points below 256, which
    [str.lower] and [str.strip] map into themselves.  A JSON number is
    an integer or a float; a float is compared exactly, as Python does,
    and carries the text [repr] gives it, which is not computed here.
    [int()] is modelled below the interpreter's digit limit;
    [textwrap.dedent] follows the regular-expression implementation of
    CPython 3.10 to 3.13.  Writing the output file can fail; printing
    to the terminal cannot. *)

From Stdlib Require Import String Ascii List ZArith NArith Bool Lia.
From Stdlib Require Import Sorting.Sorted Sorting.Permutation.
From Stdlib Require Import DecimalString.
From Stdlib Require DecimalPos.
Import ListNotations.
Open Scope string_scope.
Open Scope Z_scope.

(** ** Python strings *)

Module PyStr.

Definition code (c : ascii) : N := N_of_ascii c.

Definition nl : string := String (ascii_of_N 10) EmptyString.

(** [str.isspace] on one character: the white space [str.strip] removes. *)
Definition is_space (c : ascii) : bool :=
  let n := code c in
  ((9 <=? n) && (n <=? 13) || (28 <=? n) && (n <=? 32)
   || (n =? 133) || (n =? 160))%N.

(** Removal of the leading and of the trailing characters that satisfy [p]. *)
Section Strip.
Variable p : ascii -> bool.

Fixpoint lstrip_by (s : string) : string :=
  match s with
  | EmptyString => EmptyString
  | String c s' => if p c then lstrip_by s' else s
  end.

Fixpoint rstrip_by (s : string) : string :=
  match s with
  | EmptyString => EmptyString
  | String c s' =>
      match rstrip_by s' with
      | EmptyString => if p c then EmptyString else String c EmptyString
      | r => String c r
      end
  end.
End Strip.

(** [s.strip()] *)
Definition strip (s : string) : string := rstrip_by is_space (lstrip_by is_space s).

(** Upper-case letters below 256: A..Z, and 0xC0..0xDE without 0xD7. *)
Definition is_upper (c : ascii) : bool :=
  let n := code c in
  ((65 <=? n) && (n <=? 90)
   || (192 <=? n) && (n <=? 222) && negb (n =? 215))%N.

Definition lower_char (c : ascii) : ascii :=
  if is_upper c then ascii_of_N (code c + 32) else c.

(** [s.lower()] *)
Fixpoint lower (s : string) : string :=
  match s with
  | EmptyString => EmptyString
  | String c s' => String (lower_char c) (lower s')
  end.

(** [a in b] on two strings: [a] occurs in [b] as a contiguous run. *)
Fixpoint contains (a b : string) : bool :=
  String.prefix a b ||
  match b with
  | EmptyString => false
  | String _ b' => contains a b'
  end.

(** [s.split("\n")]: the lines of [s]; never empty. *)
Fixpoint split_nl (s : string) : list string :=
  match s with
  | EmptyString => [EmptyString]
  | String c s' =>
      if (code c =? 10)%N then EmptyString :: split_nl s'
      else match split_nl s' with
           | l :: ls => String c l :: ls
           | [] => [String c EmptyString]
           end
  end.

(** ["\n".join(ls)] *)
Definition join_nl (ls : list string) : string := String.concat nl ls.

Fixpoint repeat_char (c : ascii) (n : nat) : string :=
  match n with
  | O => EmptyString
  | S n' => String c (repeat_char c n')
  end.

Definition spaces (n : nat) : string := repeat_char " "%char n.

(** [format(s, "<w")] and [format(s, ">w")] on text already rendered:
    padding with spaces up to width [w], never truncating. *)
Definition pad_right (w : nat) (s : string) : string :=
  s ++ spaces (w - String.length s).

Definition pad_left (w : nat) (s : string) : string :=
  spaces (w - String.length s) ++ s.

(** [str(n)] for an integer. *)
Definition of_Z (z : Z) : string := NilZero.string_of_int (Z.to_int z).

Definition of_nat (n : nat) : string := of_Z (Z.of_nat n).

Fixpoint has_char (c : ascii) (s : string) : bool :=
  match s with
  | EmptyString => false
  | String c' s' => Ascii.eqb c c' || has_char c s'
  end.

Definition hex_digit (n : N) : ascii :=
  if (n <? 10)%N then ascii_of_N (48 + n) else ascii_of_N (87 + n).

Definition squote : ascii := ascii_of_N 39.
Definition dquote : ascii := ascii_of_N 34.
Definition backslash : ascii := ascii_of_N 92.

(** One character of [repr(s)] inside the quotes [q]. *)
Definition repr_char (q c : ascii) : string :=
  let n := code c in
  if Ascii.eqb c q || Ascii.eqb c backslash then String backslash (String c EmptyString)
  else if (n =? 9)%N then String backslash "t"
  else if (n =? 10)%N then String backslash "n"
  else if (n =? 13)%N then String backslash "r"
  else if (n <? 32)%N || (n =? 127)%N
          || ((128 <=? n) && (n <=? 160))%N || (n =? 173)%N
       then String backslash
              (String "x" (String (hex_digit (n / 16)) (String (hex_digit (n mod 16)) EmptyString)))
  else String c EmptyString.

Fixpoint repr_body (q : ascii) (s : string) : string :=
  match s with
  | EmptyString => EmptyString
  | String c s' => repr_char q c ++ repr_body q s'
  end.

(** [repr(s)] of a string: single quotes unless the text holds a single
    quote and no double quote. *)
Definition repr (s : string) : string :=
  let q := if has_char squote s && negb (has_char dquote s) then dquote else squote in
  String q (repr_body q s ++ String q EmptyString).

Definition is_digit (c : ascii) : bool := ((48 <=? code c) && (code c <=? 57))%N.

Definition digit_val (c : ascii) : Z := Z.of_N (code c) - 48.

(** Digits with single underscores between them, as [int()] accepts;
    [after_digit] tells whether the previous character was a digit. *)
Fixpoint digits (s : string) (acc : Z) (after_digit : bool) : option Z :=
  match s with
  | EmptyString => if after_digit then Some acc else None
  | String c s' =>
      if is_digit c then digits s' (10 * acc + digit_val c) true
      else if Ascii.eqb c "_"%char then
             (if after_digit then digits s' acc false else None)
      else None
  end.

(** The white space [int()] skips around the number: of the characters
    below 128 only tab to carriage return and the space. *)
Definition is_int_space (c : ascii) : bool :=
  let n := code c in
  ((9 <=? n) && (n <=? 13) || (n =? 32) || (n =? 133) || (n =? 160))%N.

(** [int(s)]: [None] stands for [ValueError]. *)
Definition to_int (s : string) : option Z :=
  match rstrip_by is_int_space (lstrip_by is_int_space s) with
  | EmptyString => None
  | String c s' =>
      if Ascii.eqb c "-"%char then option_map Z.opp (digits s' 0 false)
      else if Ascii.eqb c "+"%char then digits s' 0 false
      else digits (String c s') 0 false
  end.

(** *** [textwrap.dedent] *)

Definition is_blank (c : ascii) : bool := ((code c =? 32) || (code c =? 9))%N.

Fixpoint all_blank (s : string) : bool :=
  match s with
  | EmptyString => true
  | String c s' => is_blank c && all_blank s'
  end.

(** The run of spaces and tabs a line starts with. *)
Fixpoint leading_blank (s : string) : string :=
  match s with
  | EmptyString => EmptyString
  | String c s' => if is_blank c then String c (leading_blank s') else EmptyString
  end.

(** Lines of spaces and tabs only become empty. *)
Definition normalize_line (l : string) : string :=
  if all_blank l then EmptyString else l.

Fixpoint indents (ls : list string) : list string :=
  match ls with
  | [] => []
  | l :: ls' =>
      match l with
      | EmptyString => indents ls'
      | _ => leading_blank l :: indents ls'
      end
  end.

Fixpoint common_prefix (a b : string) : string :=
  match a, b with
  | String x a', String y b' =>
      if Ascii.eqb x y then String x (common_prefix a' b') else EmptyString
  | _, _ => EmptyString
  end.

Definition margin_step (margin : option string) (indent : string) : option string :=
  match margin with
  | None => Some indent
  | Some m =>
      if String.prefix m indent then Some m
      else if String.prefix indent m then Some indent
      else Some (common_prefix m indent)
  end.

(** The rest of [l] after the leading [m], when [l] starts with [m]. *)
Fixpoint strip_prefix (m l : string) : option string :=
  match m, l with
  | EmptyString, _ => Some l
  | String a m', String b l' => if Ascii.eqb a b then strip_prefix m' l' else None
  | String _ _, EmptyString => None
  end.

(** [re.sub("(?m)^" + m, "", ...)] on one line. *)
Definition drop_prefix (m l : string) : string :=
  match strip_prefix m l with
  | Some r => r
  | None => l
  end.

Definition dedent (text : string) : string :=
  let ls := map normalize_line (split_nl text) in
  match fold_left margin_step (indents ls) None with
  | Some (String c m) => join_nl (map (drop_prefix (String c m)) ls)
  | _ => join_nl ls
  end.

End PyStr.

(** ** Python values, exceptions *)

(** A Python float: not a number, an infinity, or the finite number
    [m * 2^e].  The JSON decoder accepts [NaN], [Infinity] and
    [-Infinity], and reads a numeral too large for a double as an
    infinity. *)
Inductive pyfloat : Type :=
| FNan
| FInf (negative : bool)
| FFin (m e : Z).

(** What [json] decodes to.  A float comes with [shown], the text
    [repr] renders it as (the shortest numeral that reads back as the
    same float, as in [12.5], [1e+22], [nan]). *)
#[warnings="-register-all"]
Inductive value : Type :=
| VNone
| VBool (b : bool)
| VInt (z : Z)
| VFloat (x : pyfloat) (shown : string)
| VStr (s : string)
| VList (l : list value)
| VDict (d : list (string * value)).

Inductive exn : Type :=
| AttributeError | TypeError | KeyError | IndexError | ValueError | EOFError
| HTTPError | JSONDecodeError | RequestException | OSError.

Inductive result (A : Type) : Type :=
| Ok (a : A)
| Err (e : exn).
Arguments Ok {A} a.
Arguments Err {A} e.

Definition rbind {A B} (r : result A) (f : A -> result B) : result B :=
  match r with
  | Ok a => f a
  | Err e => Err e
  end.

Declare Scope result_scope.
Delimit Scope result_scope with result.
Notation "'let?' x ':=' r 'in' k" := (rbind r (fun x => k))
  (at level 10, x name, r at level 100, k at level 200) : result_scope.

Module Py.

(** [bool(v)] *)
Definition truthy (v : value) : bool :=
  match v with
  | VNone => false
  | VBool b => b
  | VInt z => negb (z =? 0)
  | VFloat (FFin m _) _ => negb (m =? 0)
  | VFloat _ _ => true
  | VStr s => negb (String.eqb s "")
  | VList l => match l with [] => false | _ => true end
  | VDict d => match d with [] => false | _ => true end
  end.

Fixpoint lookup (k : string) (d : list (string * value)) : option value :=
  match d with
  | [] => None
  | (k', v) :: d' => if String.eqb k k' then Some v else lookup k d'
  end.

(** [v.get(k, default)]; only a dict has the method. *)
Definition get (v : value) (k : string) (default : value) : result value :=
  match v with
  | VDict d => Ok (match lookup k d with Some x => x | None => default end)
  | _ => Err AttributeError
  end.

(** [v[0]] *)
Definition item0 (v : value) : result value :=
  match v with
  | VList (x :: _) => Ok x
  | VList [] => Err IndexError
  | VStr (String c _) => Ok (VStr (String c EmptyString))
  | VStr EmptyString => Err IndexError
  | VDict _ => Err KeyError
  | _ => Err TypeError
  end.

Fixpoint chars (s : string) : list value :=
  match s with
  | EmptyString => []
  | String c s' => VStr (String c EmptyString) :: chars s'
  end.

(** The elements a [for] loop over [v] visits. *)
Definition iter (v : value) : result (list value) :=
  match v with
  | VList l => Ok l
  | VStr s => Ok (chars s)
  | VDict d => Ok (map (fun kv => VStr (fst kv)) d)
  | _ => Err TypeError
  end.

(** [v.lower()]; only a string has the method. *)
Definition lower (v : value) : result string :=
  match v with
  | VStr s => Ok (PyStr.lower s)
  | _ => Err AttributeError
  end.

(** [v == "lit"] against a string literal. *)
Definition eq_str (v : value) (lit : string) : bool :=
  match v with
  | VStr s => String.eqb s lit
  | _ => false
  end.

(** The number a value stands for in comparisons: booleans count as
    the integers 0 and 1, and an integer is compared with a float by its
    exact value. *)
Definition num_of (v : value) : option pyfloat :=
  match v with
  | VBool b => Some (FFin (if b then 1 else 0) 0)
  | VInt z => Some (FFin z 0)
  | VFloat x _ => Some x
  | _ => None
  end.

(** Order of two numbers; [None] when one of them is not a number. *)
Definition num_compare (x y : pyfloat) : option comparison :=
  match x, y with
  | FNan, _ | _, FNan => None
  | FInf n1, FInf n2 =>
      Some (if n1 then (if n2 then Eq else Lt) else (if n2 then Gt else Eq))
  | FInf n, FFin _ _ => Some (if n then Lt else Gt)
  | FFin _ _, FInf n => Some (if n then Gt else Lt)
  | FFin m1 e1, FFin m2 e2 =>
      let k := Z.min e1 e2 in
      Some (Z.compare (m1 * 2 ^ (e1 - k)) (m2 * 2 ^ (e2 - k)))
  end.

(** Equality of two numbers as a sequence or a dict tests it on its
    items: identity first, then [==].  The decoder hands out one and the
    same object for every [NaN], so there [NaN] counts as equal to
    itself, although [NaN == NaN] is false. *)
Definition num_eq (x y : pyfloat) : bool :=
  match x, y with
  | FNan, FNan => true
  | _, _ => match num_compare x y with Some Eq => true | _ => false end
  end.

(** [x < y] and [x <= y] on numbers: false whenever [NaN] takes part. *)
Definition num_cmp (lt_only : bool) (x y : pyfloat) : bool :=
  match num_compare x y with
  | Some Lt => true
  | Some Eq => negb lt_only
  | _ => false
  end.
Arguments num_eq : simpl never.
Arguments num_cmp : simpl never.

(** Walking a dict: [find_key f k d] applies [f] to the value stored
    under [k] (false when there is none), [all_entries f d] tests every
    entry. *)
Section DictWalk.
Variable V : Type.

Definition find_key (f : V -> bool) (k : string) : list (string * V) -> bool :=
  fix find (d : list (string * V)) : bool :=
    match d with
    | [] => false
    | (k', w) :: d' => if String.eqb k k' then f w else find d'
    end.

Definition all_entries (f : string -> V -> bool) : list (string * V) -> bool :=
  fix go (d : list (string * V)) : bool :=
    match d with
    | [] => true
    | (k, v) :: d' => f k v && go d'
    end.
End DictWalk.
Arguments find_key {V} f k d.
Arguments all_entries {V} f d.

(** Equality of two items of a sequence, the values of two different
    raw entries.  Lists are equal element by element; dicts when each
    key of one is a key of the other with an equal value. *)
Fixpoint eq (a b : value) {struct a} : bool :=
  match a, b with
  | VNone, VNone => true
  | VStr s, VStr t => String.eqb s t
  | VList l, VList m =>
      (fix go (l m : list value) {struct l} : bool :=
         match l, m with
         | [], [] => true
         | x :: l', y :: m' => eq x y && go l' m'
         | _, _ => false
         end) l m
  | VDict d, VDict e =>
      all_entries (fun k v => find_key (fun w => eq v w) k e) d
      && all_entries (fun k w => find_key (fun v => eq v w) k d) e
  | _, _ =>
      match num_of a, num_of b with
      | Some x, Some y => num_eq x y
      | _, _ => false
      end
  end.

Inductive cmpop : Type := Lt | Le.

(** Sequence comparison as tuples and lists do it: skip the common
    prefix of equal items, then compare the first pair that differs;
    when one sequence is a prefix of the other, compare the lengths. *)
Section SeqCmp.
Variables (A : Type) (eqA : A -> A -> bool) (cmpA : A -> A -> result bool).

Definition seq_cmp (op : cmpop) : list A -> list A -> result bool :=
  fix go (l m : list A) {struct l} : result bool :=
    match l, m with
    | x :: l', y :: m' => if eqA x y then go l' m' else cmpA x y
    | [], [] => Ok (match op with Lt => false | Le => true end)
    | [], _ :: _ => Ok true
    | _ :: _, [] => Ok false
    end.
End SeqCmp.
Arguments seq_cmp {A} eqA cmpA op l m.

(** [a < b] and [a <= b]; unorderable operands raise [TypeError]. *)
Fixpoint cmp (op : cmpop) (a b : value) {struct a} : result bool :=
  match a, b with
  | VStr s, VStr t =>
      Ok (match op with Lt => String.ltb s t | Le => String.leb s t end)
  | VList l, VList m => seq_cmp eq (cmp op) op l m
  | _, _ =>
      match num_of a, num_of b with
      | Some x, Some y => Ok (num_cmp (match op with Lt => true | Le => false end) x y)
      | _, _ => Err TypeError
      end
  end.

(** Comparison of two key tuples. *)
Definition tuple_cmp (op : cmpop) (a b : list value) : result bool :=
  seq_cmp eq (cmp op) op a b.
Arguments tuple_cmp : simpl never.

(** The value is not [NaN] and, when it is a list, holds no [NaN] at
    any depth of lists. *)
Fixpoint nan_free (v : value) : bool :=
  match v with
  | VFloat FNan _ => false
  | VList l => forallb nan_free l
  | _ => true
  end.

(** [repr(v)] *)
Fixpoint repr (v : value) : string :=
  match v with
  | VNone => "None"
  | VBool b => if b then "True" else "False"
  | VInt z => PyStr.of_Z z
  | VFloat _ shown => shown
  | VStr s => PyStr.repr s
  | VList l => "[" ++ String.concat ", " (map repr l) ++ "]"
  | VDict d =>
      "{" ++ String.concat ", "
               (map (fun kv : string * value => let (k, x) := kv in PyStr.repr k ++ ": " ++ repr x) d)
          ++ "}"
  end.

(** [str(v)], which is also what [{v}] renders in an f-string. *)
Definition str (v : value) : string :=
  match v with
  | VStr s => s
  | _ => repr v
  end.

Inductive align : Type := AlignLeft | AlignRight.

Definition pad (a : align) (w : nat) (s : string) : string :=
  match a with
  | AlignLeft => PyStr.pad_right w s
  | AlignRight => PyStr.pad_left w s
  end.

(** [{v:<w}] and [{v:>w}]: strings and numbers accept the
    specification, a boolean is rendered as the integer it is, a float
    as [repr] renders it; [None], lists and dicts raise [TypeError]. *)
Definition format (v : value) (a : align) (w : nat) : result string :=
  match v with
  | VStr s => Ok (pad a w s)
  | VInt z => Ok (pad a w (PyStr.of_Z z))
  | VBool b => Ok (pad a w (if b then "1" else "0"))
  | VFloat _ shown => Ok (pad a w shown)
  | _ => Err TypeError
  end.

(** [l[:n]] *)
Definition slice_to {A} (l : list A) (n : Z) : list A :=
  if 0 <=? n then firstn (Z.to_nat n) l
  else firstn (Z.to_nat (Z.of_nat (length l) + n)) l.

End Py.

(** ** The server catalogue: [extract_wireguard_servers] *)

(** The dict built for each kept server. *)
Record server : Type := mkServer {
  id : value;
  name : value;
  hostname : value;
  ip : value;
  load : value;
  country : value;
  city : value;
  public_key : value
}.

Local Open Scope result_scope.

(** [for t in ...: if t.get("identifier") == "wireguard_udp": wg_tech = t; break] *)
Fixpoint find_wg_tech (techs : list value) : result (option value) :=
  match techs with
  | [] => Ok None
  | t :: rest =>
      let? i := Py.get t "identifier" VNone in
      if Py.eq_str i "wireguard_udp" then Ok (Some t) else find_wg_tech rest
  end.

(** [for md in ...: if md.get("name") == "public_key": public_key = md.get("value"); break];
    [public_key] starts as [None]. *)
Fixpoint find_public_key (mds : list value) : result value :=
  match mds with
  | [] => Ok VNone
  | md :: rest =>
      let? n := Py.get md "name" VNone in
      if Py.eq_str n "public_key" then Py.get md "value" VNone
      else find_public_key rest
  end.

(** [country_filter and country_filter.lower() not in country.lower()] *)
Definition country_rejected (country_filter : option string) (country : value)
  : result bool :=
  match country_filter with
  | None => Ok false
  | Some f =>
      if String.eqb f "" then Ok false
      else let? c := Py.lower country in
           Ok (negb (PyStr.contains (PyStr.lower f) c))
  end.

(** One turn of the loop over [all_servers]: [Ok None] is [continue],
    [Ok (Some r)] appends [r]. *)
Definition extract_entry (s : value) (country_filter : option string)
  : result (option server) :=
  let? status := Py.get s "status" VNone in
  if negb (Py.eq_str status "online") then Ok None else
  let? l0 := Py.get s "locations" VNone in
  let locations := if Py.truthy l0 then l0 else VList [] in
  if negb (Py.truthy locations) then Ok None else
  let? loc := Py.item0 locations in
  let? c := Py.get loc "country" (VDict []) in
  let? country := Py.get c "name" (VStr "Unknown") in
  let? loc' := Py.item0 locations in
  let? c' := Py.get loc' "country" (VDict []) in
  let? ci := Py.get c' "city" (VDict []) in
  let? city := Py.get ci "name" (VStr "") in
  let? skip := country_rejected country_filter country in
  if skip then Ok None else
  let? ts := Py.get s "technologies" (VList []) in
  let? techs := Py.iter ts in
  let? wg := find_wg_tech techs in
  match wg with
  | None => Ok None
  | Some wg_tech =>
      if negb (Py.truthy wg_tech) then Ok None else
      let? ms := Py.get wg_tech "metadata" (VList []) in
      let? mds := Py.iter ms in
      let? public_key := find_public_key mds in
      if negb (Py.truthy public_key) then Ok None else
      let? id := Py.get s "id" VNone in
      let? name := Py.get s "name" VNone in
      let? hostname := Py.get s "hostname" VNone in
      let? station := Py.get s "station" VNone in
      let? load := Py.get s "load" VNone in
      Ok (Some (mkServer id name hostname station load country city public_key))
  end.

Fixpoint extract_loop (all_servers : list value) (country_filter : option string)
  : result (list server) :=
  match all_servers with
  | [] => Ok []
  | s :: rest =>
      let? r := extract_entry s country_filter in
      let? servers := extract_loop rest country_filter in
      Ok (match r with Some x => x :: servers | None => servers end)
  end.

(** [key=lambda x: (x["country"], x["city"], x["name"])] *)
Definition sort_key (x : server) : list value := [country x; city x; name x].

(** [list.sort] is modelled as a stable insertion sort that only asks
    [key(new) < key(old)]; it raises as soon as one comparison raises.
    Whenever all keys are comparable with one another the order is a
    total preorder and every stable sort returns this same list. *)
Fixpoint sort_insert (x : server) (sorted : list server) : result (list server) :=
  match sorted with
  | [] => Ok [x]
  | y :: rest =>
      let? lt := Py.tuple_cmp Py.Lt (sort_key x) (sort_key y) in
      if lt then Ok (x :: y :: rest)
      else let? rest' := sort_insert x rest in Ok (y :: rest')
  end.

Fixpoint sort_from (sorted todo : list server) : result (list server) :=
  match todo with
  | [] => Ok sorted
  | x :: rest =>
      let? sorted' := sort_insert x sorted in sort_from sorted' rest
  end.

Definition sort_servers (servers : list server) : result (list server) :=
  sort_from [] servers.

Definition extract_wireguard_servers
  (all_servers : list value) (country_filter : option string)
  : result (list server) :=
  let? servers := extract_loop all_servers country_filter in
  sort_servers servers.

(** ** Effects: terminal, environment, network, file system *)

Inductive event : Type :=
| Stdout (line : string)
| Stderr (line : string)
| Prompt (text : string)
| HiddenPrompt (text : string)
| HttpGet (url : string) (auth : option (string * string))
  (** the file at [path] was created or truncated and now holds [content] *)
| FileWrite (path : string) (content : string).

(** What becomes of [with open(path, "w") as f: f.write(text)]. *)
Inductive write_result : Type :=
  (** the file holds the whole text *)
| Written
  (** [open] raises: no file is created or truncated *)
| OpenRefused
  (** [open] created or truncated the file, then writing or closing it
      raised; the file is left holding [kept] *)
| WriteBroken (kept : string).

Record response : Type := mkResponse {
  status_code : Z;
  (** what [resp.json()] returns; [None] when the body is not JSON *)
  json_body : option value
}.

Record world : Type := mkWorldOn {
  (** [os.getenv("NORD_ACCESS_TOKEN")] *)
  environ : option string;
  (** lines typed at the hidden prompt *)
  tty : list string;
  (** lines waiting on standard input *)
  stdin : list string;
  (** answer of the network; [None] when [requests.get] itself raises *)
  net : string -> option (string * string) -> option response;
  (** answer of the file system to writing a text at a path *)
  disk : string -> string -> write_result;
  (** effects so far, oldest first *)
  trace : list event
}.

(** A world whose file system takes every write. *)
Definition mkWorld (environ : option string) (tty stdin : list string)
  (net : string -> option (string * string) -> option response)
  (trace : list event) : world :=
  mkWorldOn environ tty stdin net (fun _ _ => Written) trace.

Inductive outcome (A : Type) : Type :=
| Returned (a : A)
| Raised (e : exn)
| Exited (code : Z).
Arguments Returned {A} a.
Arguments Raised {A} e.
Arguments Exited {A} code.

(** Exit status of the process when [main] ends with this outcome: an
    uncaught exception ends the interpreter with status 1. *)
Definition exit_status {A} (o : outcome A) : Z :=
  match o with
  | Returned _ => 0
  | Raised _ => 1
  | Exited c => c
  end.

Definition M (A : Type) : Type := world -> outcome A * world.

Definition ret {A} (a : A) : M A := fun w => (Returned a, w).

Definition bind {A B} (m : M A) (f : A -> M B) : M B :=
  fun w =>
    match m w with
    | (Returned a, w') => f a w'
    | (Raised e, w') => (Raised e, w')
    | (Exited c, w') => (Exited c, w')
    end.

Declare Scope py_scope.
Delimit Scope py_scope with py.
Notation "x <- m ;; k" := (bind m (fun x => k))
  (at level 61, m at next level, right associativity) : py_scope.
Notation "m ;; k" := (bind m (fun _ => k))
  (at level 61, right associativity) : py_scope.
Local Open Scope py_scope.

Definition emit (e : event) (w : world) : world :=
  mkWorldOn (environ w) (tty w) (stdin w) (net w) (disk w) (trace w ++ [e]).

Definition print (line : string) : M unit := fun w => (Returned tt, emit (Stdout line) w).

Definition eprint (line : string) : M unit := fun w => (Returned tt, emit (Stderr line) w).

Definition sys_exit {A} (code : Z) : M A := fun w => (Exited code, w).

Definition raise {A} (e : exn) : M A := fun w => (Raised e, w).

Definition lift {A} (r : result A) : M A :=
  match r with
  | Ok a => ret a
  | Err e => raise e
  end.

Definition getenv : M (option string) := fun w => (Returned (environ w), w).

(** [getpass.getpass(text)] *)
Definition getpass (text : string) : M string :=
  fun w =>
    let w1 := emit (HiddenPrompt text) w in
    match tty w with
    | [] => (Raised EOFError, w1)
    | l :: rest =>
        (Returned l, mkWorldOn (environ w1) rest (stdin w1) (net w1) (disk w1) (trace w1))
    end.

(** [requests.get(url, auth=auth)] *)
Definition requests_get (url : string) (auth : option (string * string)) : M response :=
  fun w =>
    let w1 := emit (HttpGet url auth) w in
    match net w url auth with
    | None => (Raised RequestException, w1)
    | Some r => (Returned r, w1)
    end.

(** [resp.raise_for_status()] *)
Definition raise_for_status (resp : response) : M unit :=
  if (400 <=? status_code resp) && (status_code resp <? 600) then raise HTTPError
  else ret tt.

(** [resp.json()] *)
Definition json (resp : response) : M value :=
  match json_body resp with
  | Some v => ret v
  | None => raise JSONDecodeError
  end.

(** [with open(path, "w") as f: f.write(content)] *)
Definition write_file (path content : string) : M unit :=
  fun w =>
    match disk w path content with
    | Written => (Returned tt, emit (FileWrite path content) w)
    | OpenRefused => (Raised OSError, w)
    | WriteBroken kept => (Raised OSError, emit (FileWrite path kept) w)
    end.

(** ** The script *)

Definition CREDENTIALS_URL := "https://api.nordvpn.com/v1/users/services/credentials".
Definition SERVERS_URL := "https://api.nordvpn.com/v1/servers?limit=16384".

(** The string behind an [if x:] test that passes: neither [None] nor empty. *)
Definition if_truthy (o : option string) : option string :=
  match o with
  | Some s => if String.eqb s "" then None else Some s
  | None => None
  end.

Definition get_token (cmd_token : option string) : M string :=
  match if_truthy cmd_token with
  | Some t => ret (PyStr.strip t)
  | None =>
      env_token <- getenv ;;
      match if_truthy env_token with
      | Some e => ret (PyStr.strip e)
      | None =>
          print "Enter your NordVPN access token (input hidden):" ;;
          line <- getpass "> " ;;
          let token := PyStr.strip line in
          if String.eqb token "" then
            eprint "No token provided, exiting." ;;
            sys_exit 1
          else ret token
      end
  end.

Definition fetch_nordlynx_private_key (token : string) : M value :=
  resp <- requests_get CREDENTIALS_URL (Some ("token", token)) ;;
  if status_code resp =? 401 then
    eprint "Unauthorized: your access token is invalid or expired." ;;
    sys_exit 1
  else
    raise_for_status resp ;;
    data <- json resp ;;
    key <- lift (Py.get data "nordlynx_private_key" VNone) ;;
    if negb (Py.truthy key) then
      eprint "Could not find 'nordlynx_private_key' in credentials response." ;;
      eprint "Full response was:" ;;
      eprint (Py.str data) ;;
      sys_exit 1
    else ret key.

(** [extract_wireguard_servers(data, country_filter)] walks [data] with
    a [for] loop, so whatever JSON came back is first turned into the
    items the loop visits. *)
Definition fetch_servers (country_filter : option string) : M (list server) :=
  resp <- requests_get SERVERS_URL None ;;
  raise_for_status resp ;;
  data <- json resp ;;
  all_servers <- lift (Py.iter data) ;;
  lift (extract_wireguard_servers all_servers country_filter).

(** One line of the table. *)
Definition table_row (idx : nat) (s : server) : result string :=
  let? i := Py.format (VInt (Z.of_nat idx)) Py.AlignRight 3 in
  let? c := Py.format (country s) Py.AlignLeft 15 in
  let? ci := Py.format (city s) Py.AlignLeft 15 in
  let? n := Py.format (name s) Py.AlignLeft 20 in
  let? h := Py.format (hostname s) Py.AlignLeft 22 in
  let? l := Py.format (load s) Py.AlignRight 3 in
  Ok ("[" ++ i ++ "] " ++ c ++ " " ++ ci ++ " " ++ n ++ " " ++ h
      ++ " load=" ++ l ++ "%  ip=" ++ Py.str (ip s)).

(** [for idx, s in enumerate(to_show, start=idx): print(...)] *)
Fixpoint print_table (idx : nat) (to_show : list server) : M unit :=
  match to_show with
  | [] => ret tt
  | s :: rest =>
      row <- lift (table_row idx s) ;;
      print row ;;
      print_table (S idx) rest
  end.

Definition select_prompt (to_show : list server) : string :=
  "Select server [1-" ++ PyStr.of_nat (length to_show) ++ "]: ".

(** The [while True] loop.  Each turn takes one line from standard
    input, so the loop is written by recursion on the lines that are
    left; [input] raises [EOFError] when none is. *)
Fixpoint select_loop (to_show : list server) (lines : list string) (tr : list event)
  : outcome server * list string * list event :=
  let tr1 := (tr ++ [Prompt (select_prompt to_show)])%list in
  match lines with
  | [] => (Raised EOFError, [], tr1)
  | line :: rest =>
      match PyStr.to_int (PyStr.strip line) with
      | None => select_loop to_show rest (tr1 ++ [Stdout "Please enter a number."])%list
      | Some choice =>
          if (1 <=? choice) && (choice <=? Z.of_nat (length to_show)) then
            match nth_error to_show (Z.to_nat (choice - 1)) with
            | Some s => (Returned s, rest, tr1)
            | None => (Raised IndexError, rest, tr1)
            end
          else select_loop to_show rest (tr1 ++ [Stdout "Out of range, try again."])%list
      end
  end.

Definition select_server (to_show : list server) : M server :=
  fun w =>
    let '(o, rest, tr) := select_loop to_show (stdin w) (trace w) in
    (o, mkWorldOn (environ w) (tty w) rest (net w) (disk w) tr).

Definition choose_server (servers : list server) (max_to_show : Z) : M server :=
  match servers with
  | [] =>
      eprint "No matching WireGuard servers found." ;;
      sys_exit 1
  | _ =>
      print "" ;;
      print ("Found " ++ PyStr.of_nat (length servers) ++ " WireGuard-capable servers.") ;;
      print ("Showing up to " ++ PyStr.of_Z max_to_show) ;;
      print "" ;;
      let to_show := Py.slice_to servers max_to_show in
      print_table 1 to_show ;;
      print "" ;;
      select_server to_show
  end.

Definition config_template (private_key : value) (server : server) : string :=
  let address := "10.5.0.2/32" in
  let dns := "103.86.96.100, 103.86.99.100" in
  PyStr.nl ++
  "        [Interface]" ++ PyStr.nl ++
  "        PrivateKey = " ++ Py.str private_key ++ PyStr.nl ++
  "        Address    = " ++ address ++ PyStr.nl ++
  "        DNS        = " ++ dns ++ PyStr.nl ++
  PyStr.nl ++
  "        [Peer]" ++ PyStr.nl ++
  "        PublicKey           = " ++ Py.str (public_key server) ++ PyStr.nl ++
  "        AllowedIPs         = 0.0.0.0/0, ::/0" ++ PyStr.nl ++
  "        Endpoint           = " ++ Py.str (ip server) ++ ":51820" ++ PyStr.nl ++
  "        PersistentKeepalive = 25" ++ PyStr.nl ++
  "        ".

Definition build_wireguard_config (private_key : value) (server : server) : string :=
  PyStr.strip (PyStr.dedent (config_template private_key server)) ++ PyStr.nl.

(** What [argparse] hands to [main]. *)
Record args : Type := mkArgs {
  arg_token : option string;
  arg_country : option string;
  arg_max : Z;
  arg_output : option string
}.

Definition main (a : args) : M unit :=
  token <- get_token (arg_token a) ;;
  print "Fetching NordLynx private key..." ;;
  private_key <- fetch_nordlynx_private_key token ;;
  print "Fetching server list (this may take a few seconds)..." ;;
  servers <- fetch_servers (arg_country a) ;;
  server <- choose_server servers (arg_max a) ;;
  let config_text := build_wireguard_config private_key server in
  let filename :=
    match if_truthy (arg_output a) with
    | Some o => o
    | None => Py.str (hostname server) ++ ".conf"
    end in
  write_file filename config_text ;;
  print "" ;;
  print ("Saved WireGuard config to: " ++ filename) ;;
  print ("  Server:  " ++ Py.str (name server) ++ " (" ++ Py.str (hostname server) ++ ")") ;;
  print ("  Country: " ++ Py.str (country server) ++ ", " ++ Py.str (city server)).


(** ** What the claims speak about *)

(** Order of two servers under the sort key, as Python's [<=] on the key tuples. *)
Definition key_le (a b : server) : Prop :=
  Py.tuple_cmp Py.Le (sort_key a) (sort_key b) = Ok true.







(** The raw entry is online. *)
Definition is_online (s : value) : Prop :=
  exists d, s = VDict d /\ Py.lookup "status" d = Some (VStr "online").

(** The raw entry has a non-empty locations array. *)
Definition has_location (s : value) : Prop :=
  exists d loc rest, s = VDict d /\ Py.lookup "locations" d = Some (VList (loc :: rest)).

(** The raw entry lists a technology with identifier ["wireguard_udp"]
    whose metadata holds a ["public_key"] entry with the non-empty value [pk]. *)
Definition has_wireguard_key (s : value) (pk : value) : Prop :=
  exists d techs t mds md,
    s = VDict d /\
    Py.lookup "technologies" d = Some (VList techs) /\
    In (VDict t) techs /\
    Py.lookup "identifier" t = Some (VStr "wireguard_udp") /\
    Py.lookup "metadata" t = Some (VList mds) /\
    In (VDict md) mds /\
    Py.lookup "name" md = Some (VStr "public_key") /\
    Py.lookup "value" md = Some pk /\
    Py.truthy pk = true.

Definition qualifies (s : value) (pk : value) : Prop :=
  is_online s /\ has_location s /\ has_wireguard_key s pk.




(** The raw entry gets through the technology and public-key tests of
    the loop, with [pk] as its key. *)
Definition passes_key_filters (s : value) (pk : value) : Prop :=
  exists ts techs wg ms mds,
    Py.get s "technologies" (VList []) = Ok ts /\
    Py.iter ts = Ok techs /\
    find_wg_tech techs = Ok (Some wg) /\
    Py.get wg "metadata" (VList []) = Ok ms /\
    Py.iter ms = Ok mds /\
    find_public_key mds = Ok pk /\
    Py.truthy pk = true.

Definition or_default (o : option value) (default : value) : value :=
  match o with
  | Some x => x
  | None => default
  end.

(** The server built from the raw dict [d] once country, city and key are known. *)
Definition record_of (d : list (string * value)) (country city pk : value) : server :=
  mkServer (or_default (Py.lookup "id" d) VNone)
           (or_default (Py.lookup "name" d) VNone)
           (or_default (Py.lookup "hostname" d) VNone)
           (or_default (Py.lookup "station" d) VNone)
           (or_default (Py.lookup "load" d) VNone)
           country city pk.


(** ** Observations on traces *)

Definition is_write (e : event) : bool :=
  match e with
  | FileWrite _ _ => true
  | _ => false
  end.

(** The files written so far. *)
Definition writes (tr : list event) : list event := filter is_write tr.

Definition is_prompt (e : event) : bool :=
  match e with
  | Prompt _ => true
  | _ => false
  end.

(** How many times the user was asked on standard input. *)
Definition prompts (tr : list event) : nat := length (filter is_prompt tr).

(** A computation that writes no file, however it ends. *)
Definition quiet {A} (m : M A) : Prop :=
  forall w o w', m w = (o, w') -> writes (trace w') = writes (trace w).

(** The process ends with a non-zero status. *)
Definition fails {A} (o : outcome A) : Prop := exit_status o <> 0.

(** All the lines of the table, when every row can be rendered. *)
Fixpoint table_rows (idx : nat) (to_show : list server) : result (list string) :=
  match to_show with
  | [] => Ok []
  | s :: rest =>
      let? row := table_row idx s in
      let? rows := table_rows (S idx) rest in
      Ok (row :: rows)
  end.

(** What [choose_server] prints before it asks. *)
Definition table_events (servers : list server) (max_to_show : Z) (rows : list string)
  : list event :=
  [Stdout ""; Stdout ("Found " ++ PyStr.of_nat (length servers) ++ " WireGuard-capable servers.");
   Stdout ("Showing up to " ++ PyStr.of_Z max_to_show); Stdout ""]
  ++ map Stdout rows ++ [Stdout ""].
Arguments table_events : simpl never.

(** The line is a selection the loop accepts, and [s] is the server it names. *)
Definition accepted (to_show : list server) (line : string) (s : server) : Prop :=
  exists c, PyStr.to_int (PyStr.strip line) = Some c /\
            1 <= c <= Z.of_nat (length to_show) /\
            nth_error to_show (Z.to_nat (c - 1)) = Some s.

(** The line is not a number, or a number out of range. *)
Definition rejected (to_show : list server) (line : string) : Prop :=
  match PyStr.to_int (PyStr.strip line) with
  | None => True
  | Some c => ~ (1 <= c <= Z.of_nat (length to_show))
  end.

Definition retry_message (line : string) : string :=
  match PyStr.to_int (PyStr.strip line) with
  | None => "Please enter a number."
  | Some _ => "Out of range, try again."
  end.

(** What the loop shows for a run of rejected lines. *)
Definition retry_events (to_show : list server) (bad : list string) : list event :=
  flat_map (fun line => [Prompt (select_prompt to_show); Stdout (retry_message line)]) bad.


Definition http_error (code : Z) : bool := (400 <=? code) && (code <? 600).

(** A computation that writes no file when it ends with a failure. *)
Definition quiet_on_failure {A} (m : M A) : Prop :=
  forall w o w', m w = (o, w') -> fails o -> writes (trace w') = writes (trace w).

(** The world after the events [evs]. *)
Definition extend (evs : list event) (w : world) : world :=
  mkWorldOn (environ w) (tty w) (stdin w) (net w) (disk w) (trace w ++ evs).

(** The world once standard input was read down to [rest]. *)
Definition with_stdin (rest : list string) (w : world) : world :=
  mkWorldOn (environ w) (tty w) rest (net w) (disk w) (trace w).

(** ** Shape of a rendered configuration *)

(** The line is the section header [name], up to blanks around it. *)
Definition is_header (name line : string) : bool :=
  String.eqb (PyStr.strip line) name.

(** How many sections [name] the text opens. *)
Definition count_sections (name text : string) : nat :=
  length (filter (is_header name) (PyStr.split_nl text)).

(** The text ends with a line feed that no other line feed precedes. *)
Definition ends_with_one_newline (text : string) : Prop :=
  exists body c, text = body ++ String c PyStr.nl /\ PyStr.code c <> 10%N.

(** The text starts with a character that is not white space, so no
    blank line comes first. *)
Definition starts_with_text (text : string) : Prop :=
  exists c rest, text = String c rest /\ PyStr.is_space c = false.

(** The first line of the text is [line]. *)
Definition first_line_is (line text : string) : Prop :=
  exists rest, PyStr.split_nl text = line :: rest.

(** The text holds no line feed. *)
Definition one_line (s : string) : Prop :=
  PyStr.has_char (ascii_of_N 10) s = false.

(** The configuration as it is meant to come out. *)
Definition expected_config (private_key public_key ip : string) : string :=
  "[Interface]" ++ PyStr.nl ++
  "PrivateKey = " ++ private_key ++ PyStr.nl ++
  "Address    = 10.5.0.2/32" ++ PyStr.nl ++
  "DNS        = 103.86.96.100, 103.86.99.100" ++ PyStr.nl ++
  PyStr.nl ++
  "[Peer]" ++ PyStr.nl ++
  "PublicKey           = " ++ public_key ++ PyStr.nl ++
  "AllowedIPs         = 0.0.0.0/0, ::/0" ++ PyStr.nl ++
  "Endpoint           = " ++ ip ++ ":51820" ++ PyStr.nl ++
  "PersistentKeepalive = 25" ++ PyStr.nl.

(** The template between its first and its last line. *)
Definition config_middle (private_key : value) (server : server) : string :=
  "        PrivateKey = " ++ Py.str private_key ++ PyStr.nl ++
  "        Address    = 10.5.0.2/32" ++ PyStr.nl ++
  "        DNS        = 103.86.96.100, 103.86.99.100" ++ PyStr.nl ++
  PyStr.nl ++
  "        [Peer]" ++ PyStr.nl ++
  "        PublicKey           = " ++ Py.str (public_key server) ++ PyStr.nl ++
  "        AllowedIPs         = 0.0.0.0/0, ::/0" ++ PyStr.nl ++
  "        Endpoint           = " ++ Py.str (ip server) ++ ":51820".

(** The lines of the template when no value breaks a line. *)
Definition template_lines (private_key public_key ip : string) : list string :=
  [""; "        [Interface]";
   "        PrivateKey = " ++ private_key;
   "        Address    = 10.5.0.2/32";
   "        DNS        = 103.86.96.100, 103.86.99.100";
   "";
   "        [Peer]";
   "        PublicKey           = " ++ public_key;
   "        AllowedIPs         = 0.0.0.0/0, ::/0";
   "        Endpoint           = " ++ ip ++ ":51820";
   "        PersistentKeepalive = 25";
   "        "].

(** The lines of the configuration as it is meant to come out. *)
Definition expected_lines (private_key public_key ip : string) : list string :=
  ["[Interface]";
   "PrivateKey = " ++ private_key;
   "Address    = 10.5.0.2/32";
   "DNS        = 103.86.96.100, 103.86.99.100";
   "";
   "[Peer]";
   "PublicKey           = " ++ public_key;
   "AllowedIPs         = 0.0.0.0/0, ::/0";
   "Endpoint           = " ++ ip ++ ":51820";
   "PersistentKeepalive = 25";
   ""].

(** ** Sample data *)

(** A raw entry as the server list has them. *)
Definition sample_entry (status nm ctry key : string) : value :=
  VDict [("id", VInt 1); ("name", VStr nm); ("hostname", VStr (nm ++ ".nordvpn.com"));
         ("station", VStr "1.2.3.4"); ("load", VInt 10); ("status", VStr status);
         ("locations", VList [VDict [("country", VDict [("name", VStr ctry)])]]);
         ("technologies",
          VList [VDict [("identifier", VStr "openvpn_udp")];
                 VDict [("identifier", VStr "wireguard_udp");
                        ("metadata", VList [VDict [("name", VStr "public_key");
                                                   ("value", VStr key)]])]])].


(** The same entry with a location whose country is JSON null. *)
Definition sample_country_null : list (string * value) :=
  [("id", VInt 7); ("name", VStr "xx1"); ("hostname", VStr "xx1.nordvpn.com");
   ("station", VStr "5.6.7.8"); ("load", VInt 3); ("status", VStr "online");
   ("locations", VList [VDict [("country", VNone)]]);
   ("technologies",
    VList [VDict [("identifier", VStr "wireguard_udp");
                  ("metadata", VList [VDict [("name", VStr "public_key");
                                             ("value", VStr "XYZ")]])]])].


Definition sample_raw : list value :=
  [sample_entry "online" "lt1" "Lithuania" "K1";
   sample_entry "offline" "de9" "Germany" "K2";
   sample_entry "online" "de2" "Germany" "K3";
   sample_entry "online" "de1" "Germany" "";
   sample_entry "online" "de1" "Germany" "K4"].

Definition sample_server (nm : string) : server :=
  mkServer (VInt 1) (VStr nm) (VStr (nm ++ ".nordvpn.com")) (VStr "1.2.3.4")
           (VInt 10) (VStr "Germany") (VStr "Berlin") (VStr "PUB").


(** A network that answers both endpoints: the key [KEY], and [sample_raw]. *)
Definition sample_net (url : string) (auth : option (string * string)) : option response :=
  if String.eqb url CREDENTIALS_URL then
    Some (mkResponse 200 (Some (VDict [("nordlynx_private_key", VStr "KEY")])))
  else Some (mkResponse 200 (Some (VList sample_raw))).

(** ** Further notions, for the properties beyond the claims *)



(** The server's country is a string that contains the filter, up to case. *)
Definition matches_filter (f : string) (r : server) : bool :=
  match country r with
  | VStr c => PyStr.contains (PyStr.lower f) (PyStr.lower c)
  | _ => false
  end.

Definition is_request (e : event) : bool :=
  match e with
  | HttpGet _ _ => true
  | _ => false
  end.

(** The requests sent so far. *)
Definition requests (tr : list event) : list event := filter is_request tr.

Definition is_hidden_prompt (e : event) : bool :=
  match e with
  | HiddenPrompt _ => true
  | _ => false
  end.

(** The value is no dict, so it has no [get]. *)
Definition not_dict (v : value) : Prop := forall d, v <> VDict d.

(** A dict whose [field] is not the string [lit]. *)
Definition dict_without (field lit : string) (v : value) : Prop :=
  exists d, v = VDict d /\ Py.lookup field d <> Some (VStr lit).

(** Value of a decimal numeral read from the left, after the digits
    that gave [acc]. *)
Fixpoint decimal_value (d : Decimal.uint) (acc : Z) : Z :=
  match d with
  | Decimal.Nil => acc
  | Decimal.D0 d' => decimal_value d' (10 * acc)
  | Decimal.D1 d' => decimal_value d' (10 * acc + 1)
  | Decimal.D2 d' => decimal_value d' (10 * acc + 2)
  | Decimal.D3 d' => decimal_value d' (10 * acc + 3)
  | Decimal.D4 d' => decimal_value d' (10 * acc + 4)
  | Decimal.D5 d' => decimal_value d' (10 * acc + 5)
  | Decimal.D6 d' => decimal_value d' (10 * acc + 6)
  | Decimal.D7 d' => decimal_value d' (10 * acc + 7)
  | Decimal.D8 d' => decimal_value d' (10 * acc + 8)
  | Decimal.D9 d' => decimal_value d' (10 * acc + 9)
  end.

(** No character of the text satisfies [p]. *)
Fixpoint free_of (p : ascii -> bool) (s : string) : bool :=
  match s with
  | EmptyString => true
  | String c s' => negb (p c) && free_of p s'
  end.

(** The file [main] writes to. *)
Definition output_path (a : args) (s : server) : string :=
  match if_truthy (arg_output a) with
  | Some o => o
  | None => Py.str (hostname s) ++ ".conf"
  end.

(** What [main] prints after the write. *)
Definition report_events (filename : string) (s : server) : list event :=
  [Stdout ""; Stdout ("Saved WireGuard config to: " ++ filename);
   Stdout ("  Server:  " ++ Py.str (name s) ++ " (" ++ Py.str (hostname s) ++ ")");
   Stdout ("  Country: " ++ Py.str (country s) ++ ", " ++ Py.str (city s))].

(** A raw entry without a name, a load or a station. *)
Definition sample_bare : list (string * value) :=
  [("status", VStr "online");
   ("locations", VList [VDict [("country", VDict [("name", VStr "Germany")])]]);
   ("technologies",
    VList [VDict [("identifier", VStr "wireguard_udp");
                  ("metadata", VList [VDict [("name", VStr "public_key");
                                             ("value", VStr "XYZ")]])]])].

(** A WireGuard technology with the key [k], as a dict. *)
Definition sample_keyed (k : string) : list (string * value) :=
  [("identifier", VStr "wireguard_udp");
   ("metadata", VList [VDict [("name", VStr "public_key"); ("value", VStr k)]])].

(** An entry whose country name is JSON null. *)
Definition sample_null_country : list (string * value) :=
  [("status", VStr "online");
   ("locations", VList [VDict [("country", VDict [("name", VNone)])]]);
   ("technologies", VList [VDict (sample_keyed "K")])].

(** The entry [sample_bare] with the name [nm]. *)
Definition sample_named (nm : value) : value := VDict (("name", nm) :: sample_bare).

(** An entry that lists two WireGuard technologies. *)
Definition sample_two_keys (k1 k2 : string) : list (string * value) :=
  [("status", VStr "online"); ("locations", VList [VDict []]);
   ("technologies", VList [VDict (sample_keyed k1); VDict (sample_keyed k2)])].

(** [b] does not sort before [a]. *)
Definition not_before (a b : server) : Prop :=
  Py.tuple_cmp Py.Lt (sort_key b) (sort_key a) = Ok false.

(** The field of a line that starts with [label]. *)
Definition field_of (label : string) (line : option string) : option string :=
  match line with
  | Some l => PyStr.strip_prefix label l
  | None => None
  end.

(** A computation that adds no event satisfying [p] to the trace. *)
Definition silent (p : event -> bool) {A} (m : M A) : Prop :=
  forall w o w', m w = (o, w') -> filter p (trace w') = filter p (trace w).

(** A computation that adds exactly the events [evs] among those
    satisfying [p]. *)
Definition adds (p : event -> bool) (evs : list event) {A} (m : M A) : Prop :=
  forall w o w', m w = (o, w') -> filter p (trace w') = (filter p (trace w) ++ evs)%list.

(** A world like [mkWorld None [] ["1"] sample_net []] whose file system
    creates the file and then fails to write into it. *)
Definition sample_full_disk : world :=
  mkWorldOn None [] ["1"] sample_net (fun _ _ => WriteBroken "") [].

(** The request for the private key, with the token as password. *)
Definition key_request (token : string) : event :=
  HttpGet CREDENTIALS_URL (Some ("token", token)).

(** The request for the server list, without credentials. *)
Definition list_request : event := HttpGet SERVERS_URL None.

(** ** Induction on values through their lists and dicts *)

Section ValueInduction.
Variable P : value -> Prop.
Hypothesis HNone : P VNone.
Hypothesis HBool : forall b, P (VBool b).
Hypothesis HInt : forall z, P (VInt z).
Hypothesis HFloat : forall x shown, P (VFloat x shown).
Hypothesis HStr : forall s, P (VStr s).
Hypothesis HList : forall l, Forall P l -> P (VList l).
Hypothesis HDict : forall d, Forall (fun kv => P (snd kv)) d -> P (VDict d).

End ValueInduction.

(** ** Facts about strings *)

Lemma code_lt_256 c : (PyStr.code c < 256)%N.
Proof. apply N_ascii_bounded. Qed.

Lemma code_inj a b : PyStr.code a = PyStr.code b -> a = b.
Proof.
  unfold PyStr.code. intros H.
  rewrite <- (ascii_N_embedding a), <- (ascii_N_embedding b). now rewrite H.
Qed.


(** Case analysis on every comparison of code points in the goal. *)
Ltac ncases :=
  repeat match goal with
    | |- context [(?a <=? ?b)%N] => destruct (N.leb_spec a b)
    | |- context [(?a <? ?b)%N] => destruct (N.ltb_spec a b)
    | |- context [(?a =? ?b)%N] => destruct (N.eqb_spec a b)
    end;
  simpl; try (discriminate || lia || reflexivity).







Lemma prefix_app a : forall b,
  String.prefix a b = true <-> exists post, b = a ++ post.
Proof.
  induction a as [|x a IH]; intros b; simpl.
  - split; [intros _; now exists b | now destruct b].
  - destruct b as [|y b]; simpl.
    + split; [discriminate | intros [post H]; discriminate].
    + destruct (ascii_dec x y) as [->|Hne].
      * rewrite IH. split; intros [post H]; exists post; [now rewrite H | now injection H].
      * split; [discriminate | intros [post H]; injection H as H _; now subst].
Qed.



(** ** Facts about lines, [dedent] and [strip] *)

Lemma sapp_assoc (a b c : string) : (a ++ b) ++ c = a ++ b ++ c.
Proof. induction a; simpl; congruence. Qed.

Lemma sapp_nil_r (a : string) : a ++ "" = a.
Proof. induction a; simpl; congruence. Qed.

Lemma split_nl_nonempty s : PyStr.split_nl s <> [].
Proof.
  destruct s as [|c s]; simpl; [discriminate|].
  destruct (PyStr.code c =? 10)%N; [discriminate|].
  destruct (PyStr.split_nl s); discriminate.
Qed.

Lemma split_nl_app a b :
  PyStr.split_nl (a ++ String (ascii_of_N 10) b)
  = (PyStr.split_nl a ++ PyStr.split_nl b)%list.
Proof.
  induction a as [|c a IH]; [reflexivity|].
  cbn [append PyStr.split_nl].
  destruct (PyStr.code c =? 10)%N; rewrite IH; [reflexivity|].
  destruct (PyStr.split_nl a) eqn:E; [now apply split_nl_nonempty in E | reflexivity].
Qed.

Lemma has_char_nl_code c s :
  PyStr.has_char (ascii_of_N 10) (String c s)
  = (PyStr.code c =? 10)%N || PyStr.has_char (ascii_of_N 10) s.
Proof.
  cbn [PyStr.has_char]. f_equal. destruct (N.eqb_spec (PyStr.code c) 10) as [E|E].
  - apply Ascii.eqb_eq. apply code_inj. now rewrite E.
  - apply Ascii.eqb_neq. intros <-. now apply E.
Qed.

Lemma split_nl_one_line s : one_line s -> PyStr.split_nl s = [s].
Proof.
  unfold one_line. induction s as [|c s IH]; [reflexivity|].
  rewrite has_char_nl_code. intros H. apply orb_false_iff in H as [Hc Hs].
  simpl. rewrite Hc, (IH Hs). reflexivity.
Qed.

Lemma one_line_app a b : one_line a -> one_line b -> one_line (a ++ b).
Proof.
  unfold one_line. induction a as [|c a IH]; simpl; [auto|].
  intros Ha Hb. apply orb_false_iff in Ha as [Hc Ha]. rewrite Hc. simpl. auto.
Qed.

Lemma join_nl_cons x y l :
  PyStr.join_nl (x :: y :: l) = x ++ PyStr.nl ++ PyStr.join_nl (y :: l).
Proof. reflexivity. Qed.

Lemma join_nl_app l1 l2 :
  l1 <> [] -> l2 <> [] ->
  PyStr.join_nl (l1 ++ l2) = PyStr.join_nl l1 ++ PyStr.nl ++ PyStr.join_nl l2.
Proof.
  intros H1 H2. induction l1 as [|x l1 IH]; [contradiction|].
  destruct l1 as [|y l1].
  - destruct l2 as [|z l2]; [contradiction|]. reflexivity.
  - specialize (IH ltac:(discriminate)).
    change (PyStr.join_nl ((x :: y :: l1) ++ l2))
      with (x ++ PyStr.nl ++ PyStr.join_nl ((y :: l1) ++ l2)).
    rewrite IH, join_nl_cons, !sapp_assoc. reflexivity.
Qed.

(** Splitting what was joined gives the lines back. *)
Lemma split_join_nl : forall ls,
  ls <> [] -> Forall one_line ls -> PyStr.split_nl (PyStr.join_nl ls) = ls.
Proof.
  induction ls as [|x ls IH]; [contradiction|]. intros _ H.
  inversion H as [|? ? Hx Hls]; subst.
  destruct ls as [|y ls].
  - simpl. now apply split_nl_one_line.
  - rewrite join_nl_cons. unfold PyStr.nl. simpl append.
    rewrite split_nl_app, (split_nl_one_line _ Hx), IH by (discriminate || assumption).
    reflexivity.
Qed.

Lemma prefix_refl s : String.prefix s s = true.
Proof. apply prefix_app. exists EmptyString. now rewrite sapp_nil_r. Qed.

Lemma prefix_trans a b c :
  String.prefix a b = true -> String.prefix b c = true -> String.prefix a c = true.
Proof.
  rewrite !prefix_app. intros [p ->] [q ->]. exists (p ++ q). now rewrite sapp_assoc.
Qed.

Lemma common_prefix_prefix a : forall b, String.prefix (PyStr.common_prefix a b) a = true.
Proof.
  induction a as [|x a IH]; intros [|y b]; simpl; try reflexivity.
  destruct (Ascii.eqb x y); simpl; [|reflexivity].
  destruct (ascii_dec x x); [apply IH | contradiction].
Qed.

(** One more indent can only shorten the margin. *)
Lemma margin_step_shrinks m i :
  exists m', PyStr.margin_step (Some m) i = Some m' /\ String.prefix m' m = true.
Proof.
  unfold PyStr.margin_step.
  destruct (String.prefix m i) eqn:E1; [exists m; split; [reflexivity | apply prefix_refl]|].
  destruct (String.prefix i m) eqn:E2; [exists i; now split|].
  eexists. split; [reflexivity | apply common_prefix_prefix].
Qed.

Lemma margin_fold_shrinks : forall inds m,
  exists m', fold_left PyStr.margin_step inds (Some m) = Some m' /\
             String.prefix m' m = true.
Proof.
  induction inds as [|i inds IH]; intros m; cbn [fold_left].
  - exists m. split; [reflexivity | apply prefix_refl].
  - destruct (margin_step_shrinks m i) as (m1 & -> & H1).
    destruct (IH m1) as (m' & -> & H'). exists m'. split; [reflexivity|].
    eapply prefix_trans; eassumption.
Qed.

Lemma spaces_add j k : PyStr.spaces (j + k) = PyStr.spaces j ++ PyStr.spaces k.
Proof. induction j; simpl; [reflexivity|]. unfold PyStr.spaces in *. simpl. now rewrite IHj. Qed.

Lemma prefix_of_spaces : forall n m,
  String.prefix m (PyStr.spaces n) = true ->
  exists j k, m = PyStr.spaces j /\ (j + k = n)%nat.
Proof.
  intros n m H. apply prefix_app in H as [post H]. revert n post H.
  induction m as [|c m IH]; intros n post H.
  - exists 0%nat, n. now split.
  - destruct n as [|n]; [discriminate|]. unfold PyStr.spaces in H. simpl in H.
    injection H as <- H. destruct (IH n post H) as (j & k & -> & <-).
    exists (S j), k. now split.
Qed.

Lemma strip_prefix_app m : forall r, PyStr.strip_prefix m (m ++ r) = Some r.
Proof.
  induction m as [|c m IH]; intros r; simpl; [reflexivity|].
  now rewrite Ascii.eqb_refl.
Qed.

Lemma drop_prefix_app m r : PyStr.drop_prefix m (m ++ r) = r.
Proof. unfold PyStr.drop_prefix. now rewrite strip_prefix_app. Qed.

Lemma drop_prefix_empty m : PyStr.drop_prefix m "" = "".
Proof. now destruct m. Qed.

(** [dedent] works line by line once the margin is known. *)
Lemma dedent_lines text m :
  fold_left PyStr.margin_step
    (PyStr.indents (map PyStr.normalize_line (PyStr.split_nl text))) None = Some m ->
  PyStr.dedent text =
  PyStr.join_nl (map (PyStr.drop_prefix m)
                   (map PyStr.normalize_line (PyStr.split_nl text))).
Proof.
  intros H. unfold PyStr.dedent. rewrite H. destruct m as [|c m]; [|reflexivity].
  f_equal. symmetry. erewrite map_ext; [apply map_id|]. reflexivity.
Qed.

Section StripFacts.
Variable p : ascii -> bool.

Lemma lstrip_by_text c s : p c = false -> PyStr.lstrip_by p (String c s) = String c s.
Proof. intros H. simpl. now rewrite H. Qed.

Lemma rstrip_by_app s t :
  PyStr.rstrip_by p t <> "" -> PyStr.rstrip_by p (s ++ t) = s ++ PyStr.rstrip_by p t.
Proof.
  intros H. induction s as [|c s IH]; simpl; [reflexivity|].
  rewrite IH. destruct (s ++ PyStr.rstrip_by p t) eqn:E; [|reflexivity].
  destruct s; simpl in E; [contradiction | discriminate].
Qed.

Lemma rstrip_by_head c s :
  p c = false -> exists r, PyStr.rstrip_by p (String c s) = String c r.
Proof.
  intros H. simpl. destruct (PyStr.rstrip_by p s); [rewrite H|]; eauto.
Qed.
End StripFacts.

Lemma lstrip_spaces n s :
  PyStr.lstrip_by PyStr.is_space (PyStr.spaces n ++ s) = PyStr.lstrip_by PyStr.is_space s.
Proof. induction n; simpl; auto. Qed.

(** A line that starts with text is a header only when the text says so. *)
Lemma strip_head c s :
  PyStr.is_space c = false -> exists r, PyStr.strip (String c s) = String c r.
Proof.
  intros H. unfold PyStr.strip. rewrite lstrip_by_text by assumption.
  now apply rstrip_by_head.
Qed.

(** ** Facts about the rendered configuration *)

Lemma template_frame k s :
  config_template k s =
  PyStr.nl ++ "        [Interface]" ++ PyStr.nl ++ config_middle k s ++ PyStr.nl ++
  "        PersistentKeepalive = 25" ++ PyStr.nl ++ "        ".
Proof.
  unfold config_template, config_middle. cbv zeta. rewrite !sapp_assoc. reflexivity.
Qed.

(** Whatever stands between the first and the last line of the
    template, [dedent] leaves both in place, indented alike. *)
Lemma dedent_frame M :
  exists k mid,
    PyStr.dedent (PyStr.nl ++ "        [Interface]" ++ PyStr.nl ++ M ++ PyStr.nl ++
                  "        PersistentKeepalive = 25" ++ PyStr.nl ++ "        ")
    = PyStr.nl ++ PyStr.spaces k ++ "[Interface]" ++ PyStr.nl ++ mid ++ PyStr.nl ++
      PyStr.spaces k ++ "PersistentKeepalive = 25" ++ PyStr.nl.
Proof.
  set (I := "        [Interface]"). set (P := "        PersistentKeepalive = 25").
  set (X := map PyStr.normalize_line (PyStr.split_nl M)).
  assert (Hsplit : map PyStr.normalize_line
            (PyStr.split_nl (PyStr.nl ++ I ++ PyStr.nl ++ M ++ PyStr.nl ++ P ++ PyStr.nl ++ "        "))
          = ([""; I] ++ X ++ [P; ""])%list).
  { change (PyStr.nl ++ I ++ PyStr.nl ++ M ++ PyStr.nl ++ P ++ PyStr.nl ++ "        ")
      with ("" ++ String (ascii_of_N 10) (I ++ String (ascii_of_N 10)
              (M ++ String (ascii_of_N 10) (P ++ String (ascii_of_N 10) "        ")))).
    rewrite !split_nl_app, !map_app. reflexivity. }
  assert (Hind : PyStr.indents ([""; I] ++ X ++ [P; ""])
                 = PyStr.spaces 8 :: PyStr.indents (X ++ [P; ""])) by reflexivity.
  destruct (margin_fold_shrinks (PyStr.indents (X ++ [P; ""])) (PyStr.spaces 8))
    as (m & Hm & Hpre).
  destruct (prefix_of_spaces _ _ Hpre) as (j & k & -> & Hjk).
  exists k, (PyStr.join_nl (map (PyStr.drop_prefix (PyStr.spaces j)) X)).
  rewrite (dedent_lines _ (PyStr.spaces j)) by (rewrite Hsplit, Hind; exact Hm).
  rewrite Hsplit, !map_app.
  assert (HX : map (PyStr.drop_prefix (PyStr.spaces j)) X <> []).
  { subst X. destruct (PyStr.split_nl M) eqn:E;
      [now apply split_nl_nonempty in E | simpl; discriminate]. }
  rewrite join_nl_app;
    [| simpl; discriminate
     | intros H; apply app_eq_nil in H as [_ H]; discriminate H].
  rewrite join_nl_app; [| exact HX | simpl; discriminate].
  cbn [map]. rewrite !join_nl_cons. cbn [PyStr.join_nl String.concat].
  rewrite !drop_prefix_empty.
  assert (HI : forall t, PyStr.drop_prefix (PyStr.spaces j) (PyStr.spaces 8 ++ t)
                         = PyStr.spaces k ++ t).
  { intros t. rewrite <- Hjk, spaces_add, sapp_assoc. apply drop_prefix_app. }
  change I with (PyStr.spaces 8 ++ "[Interface]").
  change P with (PyStr.spaces 8 ++ "PersistentKeepalive = 25").
  rewrite !HI, !sapp_assoc. reflexivity.
Qed.

(** The configuration always opens with the [Interface] header and
    closes with the keepalive line and one line feed. *)
Lemma config_frame k s :
  exists body,
    build_wireguard_config k s =
    "[Interface]" ++ PyStr.nl ++ body ++ "PersistentKeepalive = 25" ++ PyStr.nl.
Proof.
  unfold build_wireguard_config. rewrite template_frame.
  destruct (dedent_frame (config_middle k s)) as (n & mid & ->).
  exists (mid ++ PyStr.nl ++ PyStr.spaces n).
  unfold PyStr.strip.
  change (PyStr.lstrip_by PyStr.is_space (PyStr.nl ++ ?t))
    with (PyStr.lstrip_by PyStr.is_space t).
  rewrite lstrip_spaces.
  change (PyStr.lstrip_by PyStr.is_space ("[Interface]" ++ ?t)) with ("[Interface]" ++ t).
  replace ("[Interface]" ++ PyStr.nl ++ mid ++ PyStr.nl ++ PyStr.spaces n
           ++ "PersistentKeepalive = 25" ++ PyStr.nl)
    with (("[Interface]" ++ PyStr.nl ++ mid ++ PyStr.nl ++ PyStr.spaces n)
          ++ ("PersistentKeepalive = 25" ++ PyStr.nl))
    by (rewrite !sapp_assoc; reflexivity).
  rewrite rstrip_by_app by (vm_compute; discriminate).
  change (PyStr.rstrip_by PyStr.is_space ("PersistentKeepalive = 25" ++ PyStr.nl))
    with "PersistentKeepalive = 25".
  rewrite !sapp_assoc. reflexivity.
Qed.

Lemma template_is_lines k s :
  config_template k s =
  PyStr.join_nl (template_lines (Py.str k) (Py.str (public_key s)) (Py.str (ip s))).
Proof.
  unfold config_template, template_lines, PyStr.join_nl. cbn [String.concat]. cbv zeta.
  rewrite !sapp_assoc. reflexivity.
Qed.

Lemma expected_is_lines K PK IP :
  expected_config K PK IP = PyStr.join_nl (expected_lines K PK IP).
Proof.
  unfold expected_config, expected_lines, PyStr.join_nl. cbn [String.concat].
  rewrite !sapp_assoc. reflexivity.
Qed.

Lemma template_lines_one_line K PK IP :
  one_line K -> one_line PK -> one_line IP -> Forall one_line (template_lines K PK IP).
Proof.
  intros HK HPK HIP. unfold template_lines.
  repeat constructor; repeat apply one_line_app; assumption || reflexivity.
Qed.

Lemma expected_lines_one_line K PK IP :
  one_line K -> one_line PK -> one_line IP -> Forall one_line (expected_lines K PK IP).
Proof.
  intros HK HPK HIP. unfold expected_lines.
  repeat constructor; repeat apply one_line_app; assumption || reflexivity.
Qed.

(** With values that break no line, [dedent] strips the eight spaces of
    every line of the template. *)
Lemma dedent_template K PK IP :
  one_line K -> one_line PK -> one_line IP ->
  PyStr.dedent (PyStr.join_nl (template_lines K PK IP))
  = PyStr.nl ++ expected_config K PK IP.
Proof.
  intros HK HPK HIP.
  transitivity (PyStr.join_nl ("" :: expected_lines K PK IP)).
  - unfold PyStr.dedent.
    rewrite split_join_nl by (discriminate || now apply template_lines_one_line).
    vm_compute. reflexivity.
  - rewrite expected_is_lines. reflexivity.
Qed.

(** The configuration for values that break no line. *)
Lemma config_exact k s :
  one_line (Py.str k) -> one_line (Py.str (public_key s)) -> one_line (Py.str (ip s)) ->
  build_wireguard_config k s =
  expected_config (Py.str k) (Py.str (public_key s)) (Py.str (ip s)).
Proof.
  intros HK HPK HIP. unfold build_wireguard_config.
  rewrite template_is_lines, (dedent_template _ _ _ HK HPK HIP).
  generalize (Py.str k) (Py.str (public_key s)) (Py.str (ip s)). intros K PK IP.
  unfold PyStr.strip.
  change (PyStr.lstrip_by PyStr.is_space (PyStr.nl ++ expected_config K PK IP))
    with (expected_config K PK IP).
  set (S := "[Interface]" ++ PyStr.nl ++ "PrivateKey = " ++ K ++ PyStr.nl ++
            "Address    = 10.5.0.2/32" ++ PyStr.nl ++
            "DNS        = 103.86.96.100, 103.86.99.100" ++ PyStr.nl ++ PyStr.nl ++
            "[Peer]" ++ PyStr.nl ++ "PublicKey           = " ++ PK ++ PyStr.nl ++
            "AllowedIPs         = 0.0.0.0/0, ::/0" ++ PyStr.nl ++
            "Endpoint           = " ++ IP).
  assert (HE : expected_config K PK IP =
               S ++ ":51820" ++ PyStr.nl ++ "PersistentKeepalive = 25" ++ PyStr.nl).
  { subst S. unfold expected_config. rewrite !sapp_assoc. reflexivity. }
  rewrite HE at 1. rewrite rstrip_by_app by (vm_compute; discriminate).
  change (PyStr.rstrip_by PyStr.is_space
            (":51820" ++ PyStr.nl ++ "PersistentKeepalive = 25" ++ PyStr.nl))
    with (":51820" ++ PyStr.nl ++ "PersistentKeepalive = 25").
  rewrite HE, !sapp_assoc. reflexivity.
Qed.

Lemma is_header_other c n s name :
  PyStr.is_space c = false -> Ascii.eqb c n = false ->
  is_header (String n name) (String c s) = false.
Proof.
  intros Hc Hn. unfold is_header.
  destruct (strip_head c s Hc) as (r & ->). simpl. now rewrite Hn.
Qed.

Lemma expected_sections K PK IP :
  one_line K -> one_line PK -> one_line IP ->
  count_sections "[Interface]" (expected_config K PK IP) = 1%nat /\
  count_sections "[Peer]" (expected_config K PK IP) = 1%nat.
Proof.
  intros HK HPK HIP. unfold count_sections.
  rewrite expected_is_lines,
    split_join_nl by (discriminate || now apply expected_lines_one_line).
  unfold expected_lines.
  assert (H : forall name t,
            is_header (String "[" name) ("PrivateKey = " ++ t) = false /\
            is_header (String "[" name) ("PublicKey           = " ++ t) = false /\
            is_header (String "[" name) ("Endpoint           = " ++ t) = false).
  { intros name t. repeat split; apply is_header_other; reflexivity. }
  split; cbn [filter];
    rewrite (proj1 (H _ K)), (proj1 (proj2 (H _ PK))), (proj2 (proj2 (H _ (IP ++ ":51820"))));
    reflexivity.
Qed.

(** ** Facts about Python values *)











Lemma num_of_nan_free v x :
  Py.num_of v = Some x -> Py.nan_free v = true -> x <> FNan.
Proof.
  destruct v as [| b | z | f sh | | |]; simpl; try discriminate;
    intros H; injection H as <-; try discriminate.
  destruct f; discriminate.
Qed.

Section SeqCmpFacts.
Variables (A : Type) (eqA : A -> A -> bool).
Variables (lt le : A -> A -> result bool).
Variable Q : A -> Prop.


End SeqCmpFacts.







(** ** Facts about the sort *)

Lemma sort_insert_perm x : forall sorted l,
  sort_insert x sorted = Ok l -> Permutation (x :: sorted) l.
Proof.
  induction sorted as [|y rest IH]; simpl; intros l H.
  - injection H as <-. apply Permutation_refl.
  - destruct (Py.tuple_cmp Py.Lt (sort_key x) (sort_key y)) as [[|]|] eqn:E;
      simpl in H; try discriminate.
    + injection H as <-. apply Permutation_refl.
    + destruct (sort_insert x rest) as [rest'|] eqn:E'; simpl in H; try discriminate.
      injection H as <-.
      eapply Permutation_trans; [apply perm_swap|].
      apply perm_skip. now apply IH.
Qed.

Lemma sort_from_perm : forall todo sorted l,
  sort_from sorted todo = Ok l -> Permutation (sorted ++ todo) l.
Proof.
  induction todo as [|x rest IH]; simpl; intros sorted l H.
  - injection H as <-. rewrite app_nil_r. apply Permutation_refl.
  - destruct (sort_insert x sorted) as [sorted'|] eqn:E; simpl in H; try discriminate.
    apply IH in H. apply sort_insert_perm in E.
    eapply Permutation_trans; [|exact H].
    eapply Permutation_trans; [apply Permutation_sym, Permutation_middle|].
    now apply (Permutation_app_tail rest E).
Qed.

Lemma sort_servers_perm servers l :
  sort_servers servers = Ok l -> Permutation servers l.
Proof. intros H. now apply sort_from_perm in H. Qed.














Example key_order_is_case_sensitive :
  Py.tuple_cmp Py.Le [VStr "Zambia"; VStr ""; VStr "z1"] [VStr "albania"; VStr ""; VStr "a1"]
  = Ok true.
Proof. reflexivity. Qed.

(** ** Facts about the loop over the raw entries *)

Lemma get_ok_dict v k dflt x :
  Py.get v k dflt = Ok x ->
  exists d, v = VDict d /\ x = match Py.lookup k d with Some y => y | None => dflt end.
Proof.
  destruct v; simpl; try discriminate. intros H. injection H as <-. eauto.
Qed.

Lemma get_eq_str v k lit x :
  Py.get v k VNone = Ok x -> Py.eq_str x lit = true ->
  exists d, v = VDict d /\ Py.lookup k d = Some (VStr lit).
Proof.
  intros H E. apply get_ok_dict in H as (d & -> & ->).
  exists d. split; [reflexivity|].
  destruct (Py.lookup k d) as [[]|]; simpl in E; try discriminate.
  apply String.eqb_eq in E. now subst.
Qed.

Lemma get_truthy v k x :
  Py.get v k VNone = Ok x -> Py.truthy x = true ->
  exists d, v = VDict d /\ Py.lookup k d = Some x.
Proof.
  intros H E. apply get_ok_dict in H as (d & -> & ->).
  exists d. split; [reflexivity|].
  destruct (Py.lookup k d); [reflexivity | discriminate].
Qed.

Lemma find_wg_tech_some : forall techs wg,
  find_wg_tech techs = Ok (Some wg) ->
  In wg techs /\ exists t, wg = VDict t /\
    Py.lookup "identifier" t = Some (VStr "wireguard_udp").
Proof.
  induction techs as [|t rest IH]; simpl; intros wg H; try discriminate.
  destruct (Py.get t "identifier" VNone) as [i|] eqn:E; simpl in H; try discriminate.
  destruct (Py.eq_str i "wireguard_udp") eqn:Ei.
  - injection H as <-. split; [now left|].
    eapply get_eq_str; eauto.
  - apply IH in H as [Hin Ht]. split; [now right | exact Ht].
Qed.

Lemma find_public_key_truthy : forall mds pk,
  find_public_key mds = Ok pk -> Py.truthy pk = true ->
  exists md, In (VDict md) mds /\
    Py.lookup "name" md = Some (VStr "public_key") /\
    Py.lookup "value" md = Some pk.
Proof.
  induction mds as [|m rest IH]; simpl; intros pk H Ht.
  - injection H as <-. discriminate.
  - destruct (Py.get m "name" VNone) as [n|] eqn:E; simpl in H; try discriminate.
    destruct (Py.eq_str n "public_key") eqn:En.
    + destruct (get_eq_str _ _ _ _ E En) as (md & -> & Hn).
      destruct (get_truthy _ _ _ H Ht) as (md' & Hmd & Hv).
      injection Hmd as <-. exists md. split; [now left | now split].
    + destruct (IH _ H Ht) as (md & Hin & Hmd). exists md. split; [now right | exact Hmd].
Qed.

(** The items a loop visits are the array's own when one of them is a dict. *)
Lemma iter_dict_member v items t :
  Py.iter v = Ok items -> In (VDict t) items -> v = VList items.
Proof.
  destruct v as [| | | | s | l | d]; simpl; try discriminate; intros H Hin;
    injection H as <-.
  - exfalso. induction s; simpl in Hin; [contradiction|].
    destruct Hin as [Hin|Hin]; [discriminate | auto].
  - reflexivity.
  - exfalso. apply in_map_iff in Hin as (kv & Hkv & _). discriminate.
Qed.


(** Case analysis on the next step of a computation in [result]. *)
Ltac rstep H :=
  lazymatch type of H with
  | rbind ?r _ = _ =>
      let E := fresh "E" in
      destruct r eqn:E; cbn [rbind] in H; [|discriminate H]
  | (if negb ?b then _ else _) = _ =>
      let E := fresh "E" in
      destruct b eqn:E; cbn [negb] in H
  | (if ?b then _ else _) = _ =>
      let E := fresh "E" in
      destruct b eqn:E
  | match ?o with Some _ => _ | None => _ end = _ =>
      let E := fresh "E" in
      destruct o eqn:E
  end.

(** What a kept entry looks like. *)
Lemma extract_entry_some s cf r :
  extract_entry s cf = Ok (Some r) -> qualifies s (public_key r).
Proof.
  unfold extract_entry. intros H.
  repeat (rstep H; try discriminate H).
  injection H as <-. simpl.
  match goal with H : Py.get s "status" VNone = Ok ?v, H' : Py.eq_str ?v _ = true |- _ =>
    destruct (get_eq_str _ _ _ _ H H') as (d & -> & Hst) end.
  match goal with H : find_wg_tech _ = _ |- _ =>
    apply find_wg_tech_some in H as (Hin & t & -> & Hid) end.
  match goal with H : find_public_key _ = Ok ?pk, H' : Py.truthy ?pk = true |- _ =>
    destruct (find_public_key_truthy _ _ H H') as (md & Hmd & Hname & Hval) end.
  repeat match goal with H : Py.iter _ = Ok _ |- _ =>
    eapply iter_dict_member in H; [|eassumption] end.
  subst.
  repeat match goal with H : Py.get (VDict _) _ _ = Ok _ |- _ =>
    simpl in H; injection H as H end.
  split; [|split].
  - exists d. now split.
  - destruct (Py.lookup "locations" d) as [lv|] eqn:El; subst a0;
      [|discriminate E2].
    destruct lv as [| b | z | fl sh | str | l | dd]; simpl in E2, E3.
    + discriminate.
    + destruct b; discriminate.
    + destruct (z =? 0); discriminate.
    + destruct fl as [| |m e]; simpl in *; try discriminate.
      destruct (m =? 0); discriminate.
    + destruct str; simpl in *; try discriminate.
      injection E3 as <-. discriminate E4.
    + destruct l as [|loc rest]; simpl in *; try discriminate.
      now exists d, loc, rest.
    + destruct dd; discriminate.
  - exists d, a8, t, a11, md. split; [reflexivity|].
    destruct (Py.lookup "technologies" d) as [tv|] eqn:Et;
      [subst tv | injection E10 as <-; destruct Hin].
    destruct (Py.lookup "metadata" t) as [mv|] eqn:Em;
      [subst mv | injection E15 as <-; destruct Hmd].
    now repeat split.
Qed.


Lemma extract_loop_in : forall all_servers cf servers,
  extract_loop all_servers cf = Ok servers ->
  forall r, In r servers ->
  exists s, In s all_servers /\ extract_entry s cf = Ok (Some r).
Proof.
  induction all_servers as [|s rest IH]; simpl; intros cf servers H r Hr.
  - injection H as <-. destruct Hr.
  - destruct (extract_entry s cf) as [o|] eqn:E; simpl in H; try discriminate.
    destruct (extract_loop rest cf) as [l|] eqn:El; simpl in H; try discriminate.
    injection H as <-.
    destruct o as [x|].
    + destruct Hr as [<-|Hr].
      * exists s. split; [now left | exact E].
      * destruct (IH _ _ El _ Hr) as (s' & Hin & Hs'). exists s'. split; [now right | exact Hs'].
    + destruct (IH _ _ El _ Hr) as (s' & Hin & Hs'). exists s'. split; [now right | exact Hs'].
Qed.

Lemma extract_loop_visits : forall all_servers cf servers,
  extract_loop all_servers cf = Ok servers ->
  forall s, In s all_servers ->
  exists o, extract_entry s cf = Ok o /\ forall r, o = Some r -> In r servers.
Proof.
  induction all_servers as [|s0 rest IH]; simpl; intros cf servers H s Hs.
  - destruct Hs.
  - destruct (extract_entry s0 cf) as [o|] eqn:E; simpl in H; try discriminate.
    destruct (extract_loop rest cf) as [l|] eqn:El; simpl in H; try discriminate.
    injection H as <-.
    destruct Hs as [<-|Hs].
    + exists o. split; [exact E|]. intros r ->. now left.
    + destruct (IH _ _ El _ Hs) as (o' & Ho' & Hin). exists o'. split; [exact Ho'|].
      intros r Hr. specialize (Hin r Hr). destruct o; [now right | exact Hin].
Qed.

Lemma extract_split all_servers cf l :
  extract_wireguard_servers all_servers cf = Ok l ->
  exists servers, extract_loop all_servers cf = Ok servers /\
                  sort_servers servers = Ok l.
Proof.
  unfold extract_wireguard_servers. intros H.
  destruct (extract_loop all_servers cf) as [servers|]; simpl in H; try discriminate.
  now exists servers.
Qed.









Lemma extract_loop_app pre : forall post cf kept,
  extract_loop pre cf = Ok kept ->
  extract_loop (pre ++ post) cf =
  (let? more := extract_loop post cf in Ok (kept ++ more)%list)%result.
Proof.
  induction pre as [|s pre IH]; intros post cf kept H; simpl in *.
  - injection H as <-. now destruct (extract_loop post cf).
  - destruct (extract_entry s cf) as [o|]; simpl in *; try discriminate.
    destruct (extract_loop pre cf) as [k|] eqn:E; simpl in H; try discriminate.
    injection H as <-. rewrite (IH post cf k E).
    destruct (extract_loop post cf); simpl; [|reflexivity]. now destruct o.
Qed.

(** The loop body on a raw entry of the expected shape. *)
Lemma extract_entry_shaped d loc rest c ci pk cf :
  Py.lookup "status" d = Some (VStr "online") ->
  Py.lookup "locations" d = Some (VList (VDict loc :: rest)) ->
  Py.get (VDict loc) "country" (VDict []) = Ok (VDict c) ->
  Py.get (VDict c) "city" (VDict []) = Ok (VDict ci) ->
  passes_key_filters (VDict d) pk ->
  let country := or_default (Py.lookup "name" c) (VStr "Unknown") in
  let city := or_default (Py.lookup "name" ci) (VStr "") in
  extract_entry (VDict d) cf =
  (let? skip := country_rejected cf country in
   Ok (if skip then None else Some (record_of d country city pk)))%result.
Proof.
  intros Hst Hloc Hc Hci (ts & techs & wg & ms & mds & Hts & Htechs & Hwg & Hms & Hmds & Hpk & Ht).
  intros country city. subst country city. unfold extract_entry, record_of, or_default.
  cbn [Py.get rbind]. rewrite Hst, Hloc.
  cbn [Py.eq_str String.eqb Ascii.eqb Bool.eqb negb Py.truthy Py.item0 rbind Py.get].
  cbn [Py.get] in Hc, Hci. injection Hc as Hc. injection Hci as Hci.
  rewrite Hc. cbn [rbind Py.get]. rewrite Hci. cbn [rbind Py.get].
  destruct (country_rejected cf _) as [[|]|]; cbn [rbind]; try reflexivity.
  cbn [Py.get] in Hts. injection Hts as Hts. rewrite Hts.
  rewrite Htechs. cbn [rbind].
  rewrite Hwg. cbn [rbind].
  destruct (find_wg_tech_some _ _ Hwg) as (_ & t & -> & _).
  assert (Py.truthy (VDict t) = true) as ->.
  { cbn [Py.get] in Hms. destruct t; [|reflexivity].
    apply find_wg_tech_some in Hwg as (_ & t' & Heq & Hid).
    injection Heq as <-. discriminate Hid. }
  cbn [negb]. cbn [Py.get] in Hms. injection Hms as Hms.
  cbn [Py.get rbind]. rewrite Hms. rewrite Hmds. cbn [rbind].
  rewrite Hpk. cbn [rbind]. rewrite Ht. reflexivity.
Qed.

(** ** Facts about effects *)

Lemma writes_app tr tr' : writes (tr ++ tr') = (writes tr ++ writes tr')%list.
Proof. apply filter_app. Qed.

Lemma writes_emit e w :
  writes (trace (emit e w)) = (writes (trace w) ++ (if is_write e then [e] else []))%list.
Proof. unfold emit. simpl. now rewrite writes_app. Qed.

Create HintDb quiet.

Lemma quiet_ret {A} (a : A) : quiet (ret a).
Proof. intros w o w' H. now injection H as _ <-. Qed.

Lemma quiet_raise {A} e : quiet (@raise A e).
Proof. intros w o w' H. now injection H as _ <-. Qed.

Lemma quiet_sys_exit {A} c : quiet (@sys_exit A c).
Proof. intros w o w' H. now injection H as _ <-. Qed.

Lemma quiet_lift {A} (r : result A) : quiet (lift r).
Proof. destruct r; [apply quiet_ret | apply quiet_raise]. Qed.

Lemma quiet_print s : quiet (print s).
Proof.
  intros w o w' H. injection H as _ <-. rewrite writes_emit. apply app_nil_r.
Qed.

Lemma quiet_eprint s : quiet (eprint s).
Proof.
  intros w o w' H. injection H as _ <-. rewrite writes_emit. apply app_nil_r.
Qed.

Lemma quiet_getenv : quiet getenv.
Proof. intros w o w' H. now injection H as _ <-. Qed.

Lemma quiet_getpass s : quiet (getpass s).
Proof.
  intros w o w' H. unfold getpass in H.
  destruct (tty w); injection H as _ <-; simpl; rewrite writes_app; apply app_nil_r.
Qed.

Lemma quiet_requests_get url auth : quiet (requests_get url auth).
Proof.
  intros w o w' H. unfold requests_get in H.
  destruct (net w url auth); injection H as _ <-; rewrite writes_emit; apply app_nil_r.
Qed.

Lemma quiet_raise_for_status r : quiet (raise_for_status r).
Proof.
  unfold raise_for_status.
  destruct (_ && _); [apply quiet_raise | apply quiet_ret].
Qed.

Lemma quiet_json r : quiet (json r).
Proof. unfold json. destruct (json_body r); [apply quiet_ret | apply quiet_raise]. Qed.

Lemma quiet_bind {A B} (m : M A) (f : A -> M B) :
  quiet m -> (forall a, quiet (f a)) -> quiet (bind m f).
Proof.
  intros Hm Hf w o w' H. unfold bind in H.
  destruct (m w) as [[a|e|c] w1] eqn:E.
  - rewrite (Hf a _ _ _ H). eapply Hm, E.
  - injection H as _ <-. eapply Hm, E.
  - injection H as _ <-. eapply Hm, E.
Qed.

#[export] Hint Resolve quiet_ret quiet_raise quiet_sys_exit quiet_lift quiet_print
  quiet_eprint quiet_getenv quiet_getpass quiet_requests_get quiet_raise_for_status
  quiet_json : quiet.

(** Closes [quiet] goals on straight-line code. *)
Ltac quiet_steps :=
  repeat first
    [ apply quiet_bind; [|intros ?]
    | progress auto with quiet
    | match goal with
      | |- quiet (if ?b then _ else _) => destruct b
      | |- quiet (match ?o with Some _ => _ | None => _ end) => destruct o
      end ].

Lemma quiet_get_token cmd_token : quiet (get_token cmd_token).
Proof. unfold get_token. quiet_steps. Qed.

Lemma quiet_fetch_key token : quiet (fetch_nordlynx_private_key token).
Proof. unfold fetch_nordlynx_private_key. quiet_steps. Qed.

Lemma quiet_fetch_servers cf : quiet (fetch_servers cf).
Proof. unfold fetch_servers. quiet_steps. Qed.

Lemma quiet_print_table : forall to_show idx, quiet (print_table idx to_show).
Proof. induction to_show; intros idx; simpl; quiet_steps. Qed.

Lemma select_loop_quiet to_show : forall lines tr o rest tr',
  select_loop to_show lines tr = (o, rest, tr') -> writes tr' = writes tr.
Proof.
  induction lines as [|line lines IH]; intros tr o rest tr' H; simpl in H.
  - injection H as _ _ <-. rewrite writes_app. apply app_nil_r.
  - destruct (PyStr.to_int (PyStr.strip line)) as [c|].
    + destruct ((1 <=? c) && (c <=? Z.of_nat (length to_show))).
      * destruct (nth_error to_show (Z.to_nat (c - 1)));
          injection H as _ _ <-; rewrite writes_app; apply app_nil_r.
      * apply IH in H. rewrite H, !writes_app. simpl. now rewrite !app_nil_r.
    + apply IH in H. rewrite H, !writes_app. simpl. now rewrite !app_nil_r.
Qed.

Lemma quiet_select_server to_show : quiet (select_server to_show).
Proof.
  intros w o w' H. unfold select_server in H.
  destruct (select_loop to_show (stdin w) (trace w)) as [[o' rest] tr] eqn:E.
  injection H as _ <-. simpl. eapply select_loop_quiet, E.
Qed.

Lemma quiet_choose_server servers m : quiet (choose_server servers m).
Proof.
  unfold choose_server. destruct servers; quiet_steps;
    auto using quiet_print_table, quiet_select_server.
Qed.

Lemma quiet_fails {A} (m : M A) : quiet m -> quiet_on_failure m.
Proof. intros H w o w' E _. eapply H, E. Qed.

Lemma quiet_on_failure_bind {A B} (m : M A) (f : A -> M B) :
  quiet m -> (forall a, quiet_on_failure (f a)) -> quiet_on_failure (bind m f).
Proof.
  intros Hm Hf w o w' H Ho. unfold bind in H.
  destruct (m w) as [[a|e|c] w1] eqn:E.
  - rewrite (Hf a _ _ _ H Ho). eapply Hm, E.
  - injection H as _ <-. eapply Hm, E.
  - injection H as _ <-. eapply Hm, E.
Qed.

Lemma emit_extend e w : emit e w = extend [e] w.
Proof. reflexivity. Qed.

Lemma extend_extend a b w : extend b (extend a w) = extend (a ++ b) w.
Proof. unfold extend. simpl. now rewrite app_assoc. Qed.

Lemma print_table_ok : forall to_show idx rows w,
  table_rows idx to_show = Ok rows ->
  print_table idx to_show w = (Returned tt, extend (map Stdout rows) w).
Proof.
  induction to_show as [|s rest IH]; simpl; intros idx rows w H.
  - injection H as <-. unfold ret, extend. simpl. rewrite app_nil_r. now destruct w.
  - destruct (table_row idx s) as [row|]; simpl in H; try discriminate.
    destruct (table_rows (S idx) rest) as [rows'|] eqn:E; simpl in H; try discriminate.
    injection H as <-. unfold bind. simpl. rewrite (IH _ _ _ E).
    now rewrite emit_extend, extend_extend.
Qed.

(** Before it asks, [choose_server] prints the header and one row for
    each server of [servers[:max_to_show]], in list order. *)
Lemma choose_server_displays servers m rows w :
  servers <> [] ->
  table_rows 1 (Py.slice_to servers m) = Ok rows ->
  choose_server servers m w =
  select_server (Py.slice_to servers m) (extend (table_events servers m rows) w).
Proof.
  intros Hne Hrows. unfold choose_server. destruct servers as [|s0 servers]; [contradiction|].
  unfold bind, print. rewrite (print_table_ok _ _ _ _ Hrows).
  rewrite !emit_extend, !extend_extend. reflexivity.
Qed.

Lemma slice_to_nonneg {A} (l : list A) n :
  0 <= n -> Py.slice_to l n = firstn (Z.to_nat n) l.
Proof. intros H. unfold Py.slice_to. now destruct (Z.leb_spec 0 n); [|lia]. Qed.

Lemma select_loop_accepts to_show line rest s tr :
  accepted to_show line s ->
  select_loop to_show (line :: rest) tr =
  (Returned s, rest, tr ++ [Prompt (select_prompt to_show)])%list.
Proof.
  intros (c & Hc & Hr & Hn). simpl. rewrite Hc.
  replace ((1 <=? c) && (c <=? Z.of_nat (length to_show))) with true by lia.
  now rewrite Hn.
Qed.

Lemma select_loop_rejects to_show line rest tr :
  rejected to_show line ->
  select_loop to_show (line :: rest) tr =
  select_loop to_show rest (tr ++ retry_events to_show [line]).
Proof.
  unfold rejected, retry_events, retry_message. intros H. simpl.
  destruct (PyStr.to_int (PyStr.strip line)) as [c|].
  - replace ((1 <=? c) && (c <=? Z.of_nat (length to_show))) with false by lia.
    now rewrite <- app_assoc.
  - now rewrite <- app_assoc.
Qed.

Lemma retry_events_cons to_show line bad :
  retry_events to_show (line :: bad) =
  (retry_events to_show [line] ++ retry_events to_show bad)%list.
Proof. reflexivity. Qed.

Lemma select_loop_skips to_show : forall bad rest tr,
  Forall (rejected to_show) bad ->
  select_loop to_show (bad ++ rest) tr =
  select_loop to_show rest (tr ++ retry_events to_show bad).
Proof.
  induction bad as [|line bad IH]; intros rest tr H.
  - simpl. now rewrite app_nil_r.
  - inversion H as [|? ? Hline Hbad]; subst.
    rewrite <- app_comm_cons, (select_loop_rejects _ _ _ _ Hline), (IH _ _ Hbad).
    now rewrite (retry_events_cons to_show line bad), app_assoc.
Qed.

(** ** The claims *)

(** C1.  Every server in the result of [extract_wireguard_servers] was
    built from a raw entry that is online, has a non-empty locations
    array and lists a ["wireguard_udp"] technology whose ["public_key"]
    metadata value is non-empty (that value is the server's key); a raw
    entry that fails one of these conditions is skipped. *)
Theorem extract_keeps_only_qualified :
  forall all_servers cf servers,
    extract_wireguard_servers all_servers cf = Ok servers ->
    (forall r, In r servers ->
       exists s, In s all_servers /\ extract_entry s cf = Ok (Some r) /\
                 qualifies s (public_key r)) /\
    (forall s, In s all_servers -> ~ (exists pk, qualifies s pk) ->
       extract_entry s cf = Ok None).
Proof.
  intros all_servers cf l H.
  apply extract_split in H as (servers & Hloop & Hsort).
  apply sort_servers_perm in Hsort. split.
  - intros r Hr. apply (Permutation_in _ (Permutation_sym Hsort)) in Hr.
    destruct (extract_loop_in _ _ _ Hloop _ Hr) as (s & Hin & Hs).
    exists s. split; [exact Hin|]. split; [exact Hs|].
    now apply extract_entry_some in Hs.
  - intros s Hin Hnot.
    destruct (extract_loop_visits _ _ _ Hloop _ Hin) as ([r|] & Ho & _); [|exact Ho].
    exfalso. apply Hnot. exists (public_key r). now apply extract_entry_some in Ho.
Qed.


(** C4 as it was stated fails: of two servers of one country whose
    names are the float [NaN] and the integer 1, neither sorts before
    the other, so they come back as they came in, and [NaN <= 1] is
    false. *)
Lemma extract_unsorted_with_nan :
  exists servers,
    extract_wireguard_servers
      [sample_named (VFloat FNan "nan"); sample_named (VInt 1)] None = Ok servers /\
    map name servers = [VFloat FNan "nan"; VInt 1] /\
    ~ Sorted key_le servers.
Proof.
  eexists. split; [vm_compute; reflexivity|]. split; [reflexivity|].
  intros H. inversion H as [|? ? _ Hhd]. inversion Hhd as [|? ? Hle].
  vm_compute in Hle. discriminate Hle.
Qed.

Lemma extract_keeps_only_qualified_witness :
  exists servers,
    extract_wireguard_servers sample_raw None = Ok servers /\
    (forall r, In r servers ->
       exists s, In s sample_raw /\ extract_entry s None = Ok (Some r) /\
                 qualifies s (public_key r)) /\
    (forall s, In s sample_raw -> ~ (exists pk, qualifies s pk) ->
       extract_entry s None = Ok None).
Proof.
  eexists. split; [vm_compute; reflexivity|].
  apply (extract_keeps_only_qualified sample_raw None). vm_compute. reflexivity.
Defined.









(** C10 as it was stated fails: the entry below passes the status,
    location, technology and key tests and its first location names no
    country, the country being null; it is not kept under ["Unknown"],
    the extraction raises [AttributeError]. *)
Lemma null_country_not_defaulted :
  Py.lookup "status" sample_country_null = Some (VStr "online") /\
  Py.lookup "locations" sample_country_null = Some (VList [VDict [("country", VNone)]]) /\
  passes_key_filters (VDict sample_country_null) (VStr "XYZ") /\
  extract_wireguard_servers [VDict sample_country_null] None = Err AttributeError.
Proof.
  split; [reflexivity|]. split; [reflexivity|]. split; [|reflexivity].
  do 5 eexists. repeat split; reflexivity.
Qed.


(** The part of [main] that follows the selection: the report is
    printed when the write went through, else [OSError] ends the run. *)
Lemma write_and_report filename config_text l1 l2 l3 w :
  (write_file filename config_text ;; print "" ;; print l1 ;; print l2 ;; print l3) w =
  match disk w filename config_text with
  | Written =>
      (Returned tt,
       extend [FileWrite filename config_text; Stdout ""; Stdout l1; Stdout l2; Stdout l3] w)
  | OpenRefused => (Raised OSError, w)
  | WriteBroken kept => (Raised OSError, extend [FileWrite filename kept] w)
  end.
Proof.
  unfold bind, write_file, print.
  destruct (disk w filename config_text); [|reflexivity|reflexivity].
  now rewrite !emit_extend, !extend_extend.
Qed.

(** ** The claims on the effectful stages *)

(** Where [get_token] does what was asked of it: the command line wins
    over the environment, the environment over the prompt. *)
Lemma get_token_prefers_cli cmd_token t w :
  if_truthy cmd_token = Some t -> get_token cmd_token w = (Returned (PyStr.strip t), w).
Proof. intros H. unfold get_token. now rewrite H. Qed.

Lemma get_token_then_env cmd_token e w :
  if_truthy cmd_token = None -> if_truthy (environ w) = Some e ->
  get_token cmd_token w = (Returned (PyStr.strip e), w).
Proof. intros H He. unfold get_token, bind, getenv. now rewrite H, He. Qed.

Lemma get_token_then_prompt cmd_token line rest w :
  if_truthy cmd_token = None -> if_truthy (environ w) = None ->
  tty w = line :: rest ->
  fst (get_token cmd_token w) =
  if String.eqb (PyStr.strip line) "" then Exited 1 else Returned (PyStr.strip line).
Proof.
  intros H He Ht. unfold get_token, bind, getenv, print, getpass. rewrite H, He. simpl.
  rewrite Ht. destruct (String.eqb (PyStr.strip line) ""); reflexivity.
Qed.

(** C2.  Where the code departs from the claim: a command-line value of
    blanks only passes the test [if cmd_token:] before it is trimmed, so
    [get_token] returns the empty token and never looks at the
    environment or the prompt; a blank environment value does the same. *)
Theorem get_token_blank_value_accepted :
  (forall w, get_token (Some "   ") w = (Returned "", w)) /\
  (forall tty stdin net tr,
     let w := mkWorld (Some "  ") tty stdin net tr in
     get_token None w = (Returned "", w)).
Proof. split; reflexivity. Qed.



(** C5 as it was stated fails: a credentials response whose body is the
    JSON array [[]] carries no key, and the process ends with a
    non-zero status, but the body is not printed: [data.get] raises
    [AttributeError] and the error stream stays empty. *)
Lemma fetch_private_key_array_not_printed :
  let w := mkWorld None [] [] (fun _ _ => Some (mkResponse 200 (Some (VList [])))) [] in
  exists w',
    fetch_nordlynx_private_key "tok" w = (Raised AttributeError, w') /\
    fails (Raised (A := value) AttributeError) /\
    ~ In (Stderr (Py.str (VList []))) (trace w') /\
    trace w' = [HttpGet CREDENTIALS_URL (Some ("token", "tok"))].
Proof.
  cbv zeta. eexists. split; [vm_compute; reflexivity|].
  split; [discriminate|]. split; [|reflexivity].
  simpl. intros [H|[]]. discriminate H.
Qed.





(** C9 as it was stated fails: when the write breaks after [open]
    created the file, the run ends with [OSError], a non-zero status,
    and the output file is there, empty. *)
Lemma failed_write_leaves_file :
  exists w',
    main (mkArgs (Some "tok") (Some "lith") 50 None) sample_full_disk
      = (Raised OSError, w') /\
    fails (Raised (A := unit) OSError) /\
    writes (trace w') = [FileWrite "lt1.nordvpn.com.conf" ""].
Proof.
  eexists. split; [vm_compute; reflexivity|]. split; [discriminate | reflexivity].
Qed.

(** C3.  Where the code departs from the claim: the display list is the
    slice [servers[:max_to_show]], and with the cap -1 the slice holds
    all servers but the last.  Of three servers two rows are shown,
    under the line "Showing up to -1", and the answer 2 selects the
    second of them. *)
Theorem negative_cap_shows_all_but_last :
  (forall a b c : server, Py.slice_to [a; b; c] (-1) = [a; b]) /\
  (let servers := [sample_server "de1"; sample_server "de2"; sample_server "de3"] in
   let w := mkWorld None [] ["2"] (fun _ _ => None) [] in
   exists rows,
     table_rows 1 [sample_server "de1"; sample_server "de2"] = Ok rows /\
     choose_server servers (-1) w =
       (Returned (sample_server "de2"),
        mkWorld None [] [] (fun _ _ => None)
          (table_events servers (-1) rows ++ [Prompt "Select server [1-2]: "]))).
Proof.
  split; [reflexivity|]. cbv zeta. eexists.
  split; [vm_compute; reflexivity | vm_compute; reflexivity].
Qed.

(** What holds of the display for a cap that is not negative: the rows
    are those of the first [max_to_show] servers, and an accepted answer
    returns the server on that row. *)
Lemma choose_server_first_entries servers m rows line rest s w :
  0 <= m -> servers <> [] ->
  table_rows 1 (firstn (Z.to_nat m) servers) = Ok rows ->
  stdin w = line :: rest ->
  accepted (firstn (Z.to_nat m) servers) line s ->
  choose_server servers m w =
  (Returned s,
   with_stdin rest
     (extend (table_events servers m rows
              ++ [Prompt (select_prompt (firstn (Z.to_nat m) servers))]) w)).
Proof.
  intros Hm Hne Hrows Hin Hacc.
  rewrite <- (slice_to_nonneg servers m Hm) in *.
  rewrite (choose_server_displays _ _ _ _ Hne Hrows).
  unfold select_server, extend. cbn [stdin trace environ tty net disk].
  rewrite Hin, (select_loop_accepts _ _ _ _ _ Hacc).
  unfold with_stdin. cbn [stdin trace environ tty net disk]. now rewrite app_assoc.
Qed.

(** C8.  With three servers on display and the lines "abc", "7", "2" on
    standard input, [choose_server] asks three times (a retry for the
    text that is no number, a retry for the number out of range) and
    returns the second server.  In general every rejected line only
    leads to the next prompt, however many there are: the loop ends on
    an accepted line, or when standard input runs dry. *)
Theorem choose_server_reprompts :
  (forall servers m a b c rows w rest,
     Py.slice_to servers m = [a; b; c] ->
     table_rows 1 [a; b; c] = Ok rows ->
     stdin w = "abc" :: "7" :: "2" :: rest ->
     let p := Prompt "Select server [1-3]: " in
     choose_server servers m w =
       (Returned b,
        with_stdin rest
          (extend (table_events servers m rows
                   ++ [p; Stdout "Please enter a number.";
                       p; Stdout "Out of range, try again."; p]) w))) /\
  (forall to_show bad line rest s tr,
     Forall (rejected to_show) bad -> accepted to_show line s ->
     select_loop to_show (bad ++ line :: rest) tr =
       (Returned s, rest,
        tr ++ retry_events to_show bad ++ [Prompt (select_prompt to_show)])%list /\
     prompts (retry_events to_show bad ++ [Prompt (select_prompt to_show)])
       = S (length bad)) /\
  (forall to_show bad tr,
     Forall (rejected to_show) bad ->
     select_loop to_show bad tr =
       (Raised EOFError, [],
        tr ++ retry_events to_show bad ++ [Prompt (select_prompt to_show)])%list).
Proof.
  split; [|split].
  - intros servers m a b c rows w rest Hslice Hrows Hin p.
    assert (Hne : servers <> []).
    { intros ->. unfold Py.slice_to in Hslice. simpl in Hslice.
      destruct (0 <=? m); rewrite firstn_nil in Hslice; discriminate. }
    rewrite <- Hslice in Hrows. rewrite (choose_server_displays _ _ _ _ Hne Hrows).
    rewrite Hslice. unfold select_server, extend. cbn [stdin trace environ tty net disk].
    rewrite Hin. unfold with_stdin. subst p.
    cbn [select_loop stdin trace environ tty net].
    change (PyStr.to_int (PyStr.strip "abc")) with (@None Z).
    change (PyStr.to_int (PyStr.strip "7")) with (Some 7).
    change (PyStr.to_int (PyStr.strip "2")) with (Some 2).
    cbv iota beta. cbn [length Z.of_nat].
    change (nth_error [a; b; c] (Z.to_nat (2 - 1))) with (Some b).
    cbv iota beta. rewrite <- !app_assoc. reflexivity.
  - intros to_show bad line rest s tr Hbad Hacc. split.
    + rewrite (select_loop_skips _ _ _ _ Hbad), (select_loop_accepts _ _ _ _ _ Hacc).
      now rewrite app_assoc.
    + unfold prompts. rewrite filter_app, length_app. simpl.
      clear. induction bad as [|l bad IH]; simpl; lia.
  - intros to_show bad tr Hbad.
    rewrite <- (app_nil_r bad) at 1. rewrite (select_loop_skips _ _ _ _ Hbad).
    simpl. now rewrite app_assoc.
Qed.

Lemma choose_server_reprompts_witness :
  let servers := [sample_server "de1"; sample_server "de2"; sample_server "de3"] in
  let w := mkWorld None [] ["abc"; "7"; "2"; "left"] (fun _ _ => None) [] in
  exists w',
    choose_server servers 50 w = (Returned (sample_server "de2"), w') /\
    stdin w' = ["left"] /\ prompts (trace w') = 3%nat.
Proof.
  cbv zeta.
  destruct choose_server_reprompts as (Hscen & _ & _).
  eexists. split; [|split].
  - eapply (Hscen [sample_server "de1"; sample_server "de2"; sample_server "de3"] 50
              (sample_server "de1") (sample_server "de2") (sample_server "de3")
              _ (mkWorld None [] ["abc"; "7"; "2"; "left"] (fun _ _ => None) []) ["left"]);
      reflexivity.
  - reflexivity.
  - reflexivity.
Defined.

(** C6, as amended.  [build_wireguard_config] is a function of the
    private key and of the server's public key and address alone; the
    first line of its text is always the [Interface] header, with no
    blank line or blank before it, and the text ends with exactly one
    line feed; and when none of the three values contains a line feed
    it is the expected document, which has exactly one [Interface] and
    exactly one [Peer] section. *)
Theorem render_config_shape :
  forall private_key server,
    let text := build_wireguard_config private_key server in
    (forall server',
       public_key server' = public_key server -> ip server' = ip server ->
       build_wireguard_config private_key server' = text) /\
    first_line_is "[Interface]" text /\
    starts_with_text text /\
    ends_with_one_newline text /\
    (one_line (Py.str private_key) ->
     one_line (Py.str (public_key server)) ->
     one_line (Py.str (ip server)) ->
     text = expected_config (Py.str private_key) (Py.str (public_key server))
                            (Py.str (ip server)) /\
     count_sections "[Interface]" text = 1%nat /\
     count_sections "[Peer]" text = 1%nat).
Proof.
  intros k s text. subst text. split; [|split; [|split; [|split]]].
  - intros s' Hpk Hip. unfold build_wireguard_config, config_template.
    now rewrite Hpk, Hip.
  - destruct (config_frame k s) as (body & ->).
    exists (PyStr.split_nl (body ++ "PersistentKeepalive = 25" ++ PyStr.nl)).
    exact (split_nl_app "[Interface]" _).
  - destruct (config_frame k s) as (body & ->).
    eexists. eexists. split; reflexivity.
  - destruct (config_frame k s) as (body & ->).
    exists ("[Interface]" ++ PyStr.nl ++ body ++ "PersistentKeepalive = 2"), "5"%char.
    split; [rewrite !sapp_assoc; reflexivity | discriminate].
  - intros HK HPK HIP. rewrite (config_exact k s HK HPK HIP).
    split; [reflexivity|]. now apply expected_sections.
Qed.

Lemma render_config_shape_witness :
  let text := build_wireguard_config (VStr "KEY") (sample_server "de1") in
  text = expected_config "KEY" "PUB" "1.2.3.4" /\
  count_sections "[Interface]" text = 1%nat /\
  count_sections "[Peer]" text = 1%nat.
Proof.
  cbv zeta.
  apply (render_config_shape (VStr "KEY") (sample_server "de1")); reflexivity.
Defined.

(** A private key that carries a line feed and a header of its own
    yields a document with two [Peer] sections. *)
Lemma render_config_injected_section :
  ~ (count_sections "[Peer]"
       (build_wireguard_config (VStr ("k" ++ PyStr.nl ++ "[Peer]")) (sample_server "de1"))
     = 1%nat).
Proof. vm_compute. discriminate. Qed.

(** ** Further properties of the script *)

(** *** [get_token] *)

Section StripIdempotent.
Variable p : ascii -> bool.

Lemma lstrip_by_shape s :
  PyStr.lstrip_by p s = "" \/
  exists c s', PyStr.lstrip_by p s = String c s' /\ p c = false.
Proof.
  induction s as [|c s IH]; simpl; [now left|].
  destruct (p c) eqn:E; [exact IH|]. right. now exists c, s.
Qed.

Lemma rstrip_by_idem s : PyStr.rstrip_by p (PyStr.rstrip_by p s) = PyStr.rstrip_by p s.
Proof.
  induction s as [|c s IH]; simpl; [reflexivity|].
  destruct (PyStr.rstrip_by p s) as [|d r] eqn:E.
  - destruct (p c) eqn:Ec; simpl; [reflexivity | now rewrite Ec].
  - cbn [PyStr.rstrip_by]. cbn [PyStr.rstrip_by] in IH. now rewrite IH.
Qed.

Lemma rstrip_by_free s : free_of p s = true -> PyStr.rstrip_by p s = s.
Proof.
  induction s as [|c s IH]; simpl; [reflexivity|].
  intros H. apply andb_true_iff in H as [Hc Hs]. rewrite (IH Hs).
  apply negb_true_iff in Hc. rewrite Hc. now destruct s.
Qed.

Lemma lstrip_by_free s : free_of p s = true -> PyStr.lstrip_by p s = s.
Proof.
  destruct s as [|c s]; simpl; [reflexivity|].
  intros H. apply andb_true_iff in H as [Hc _].
  apply negb_true_iff in Hc. now rewrite Hc.
Qed.
End StripIdempotent.

(** Stripping twice is stripping once. *)
Lemma strip_idem s : PyStr.strip (PyStr.strip s) = PyStr.strip s.
Proof.
  unfold PyStr.strip.
  destruct (lstrip_by_shape PyStr.is_space s) as [E | (c & s' & E & Hc)]; rewrite E.
  - reflexivity.
  - destruct (rstrip_by_head PyStr.is_space c s' Hc) as (r & Er).
    rewrite Er, (lstrip_by_text _ _ _ Hc), <- Er.
    apply rstrip_by_idem.
Qed.

(** X1.  [get_token] takes the command-line value when it is not
    empty, else the environment value when it is not empty, and in both
    cases touches nothing: it neither prints nor prompts.  Only when
    both are missing or empty does it ask, once, at the hidden prompt. *)
Theorem get_token_source_order :
  forall cmd_token w o w',
    get_token cmd_token w = (o, w') ->
    match if_truthy cmd_token, if_truthy (environ w) with
    | Some t, _ => o = Returned (PyStr.strip t) /\ w' = w
    | None, Some e => o = Returned (PyStr.strip e) /\ w' = w
    | None, None =>
        filter is_hidden_prompt (trace w')
          = (filter is_hidden_prompt (trace w) ++ [HiddenPrompt "> "])%list /\
        tty w' = tl (tty w)
    end.
Proof.
  intros cli w o w' H. unfold get_token in H.
  destruct (if_truthy cli) as [t|]; [now injection H as <- <-|].
  unfold bind, getenv in H.
  destruct (if_truthy (environ w)) as [e|]; [now injection H as <- <-|].
  unfold print, getpass in H. cbn [tty emit trace environ stdin net] in H.
  destruct (tty w) as [|line rest] eqn:Et.
  - injection H as _ <-. cbn. rewrite Et, !filter_app. simpl.
    now rewrite app_nil_r.
  - cbn in H. destruct (String.eqb (PyStr.strip line) ""); cbn in H;
      injection H as _ <-; cbn; rewrite !filter_app; simpl;
      now rewrite ?app_nil_r.
Qed.

Lemma get_token_source_order_witness :
  let w := mkWorld (Some "from-env") ["typed"] [] (fun _ _ => None) [] in
  get_token (Some " from-cli ") w = (Returned "from-cli", w) /\
  get_token (Some "") w = (Returned "from-env", w).
Proof.
  cbv zeta. split.
  - pose proof (get_token_source_order (Some " from-cli ")
                  (mkWorld (Some "from-env") ["typed"] [] (fun _ _ => None) [])
                  _ _ eq_refl) as H.
    cbn in H. destruct H as [_ H]. reflexivity.
  - pose proof (get_token_source_order (Some "")
                  (mkWorld (Some "from-env") ["typed"] [] (fun _ _ => None) [])
                  _ _ eq_refl) as H.
    cbn in H. destruct H as [_ H]. reflexivity.
Defined.

(** X2.  A token [get_token] returns has no white space around it, and
    a token that comes from the prompt is never empty: it is the typed
    line, trimmed. *)
Theorem get_token_result_trimmed :
  forall cmd_token w t w',
    get_token cmd_token w = (Returned t, w') ->
    PyStr.strip t = t /\
    (if_truthy cmd_token = None -> if_truthy (environ w) = None ->
     t <> "" /\ exists line, hd_error (tty w) = Some line /\ t = PyStr.strip line).
Proof.
  intros cli w t w' H. unfold get_token in H.
  destruct (if_truthy cli) as [c|].
  { injection H as <- _. split; [apply strip_idem | discriminate]. }
  unfold bind, getenv in H.
  destruct (if_truthy (environ w)) as [e|].
  { injection H as <- _. split; [apply strip_idem | discriminate]. }
  unfold print, getpass in H. cbn [tty emit trace environ stdin net] in H.
  destruct (tty w) as [|line rest]; [discriminate H|].
  cbn in H. destruct (String.eqb_spec (PyStr.strip line) "") as [E|E]; cbn in H;
    [discriminate H|].
  injection H as <- _. split; [apply strip_idem|].
  intros _ _. split; [exact E|]. now exists line.
Qed.

Lemma get_token_result_trimmed_witness :
  let w := mkWorld None ["  secret  "; "next"] [] (fun _ _ => None) [] in
  exists w', get_token None w = (Returned "secret", w') /\
             PyStr.strip "secret" = "secret" /\ "secret" <> "".
Proof.
  cbv zeta. eexists. split; [reflexivity|].
  destruct (get_token_result_trimmed None
              (mkWorld None ["  secret  "; "next"] [] (fun _ _ => None) [])
              "secret" _ eq_refl) as [Ht Hp].
  split; [exact Ht|]. now destruct (Hp eq_refl eq_refl).
Defined.

(** *** [extract_wireguard_servers] *)

(** X3.  An entry that is not online, or whose locations are missing,
    null or empty, is skipped before anything else of it is read:
    whatever its other fields hold, the loop goes on without raising. *)
Theorem offline_or_unplaced_entry_skipped :
  forall d cf,
    Py.lookup "status" d <> Some (VStr "online") \/
    Py.truthy (or_default (Py.lookup "locations" d) VNone) = false ->
    extract_entry (VDict d) cf = Ok None.
Proof.
  intros d cf H. unfold extract_entry. cbn [Py.get rbind].
  destruct (Py.eq_str _ "online") eqn:Est; cbn [negb]; [|reflexivity].
  destruct H as [H | H].
  - exfalso. apply H.
    destruct (Py.lookup "status" d) as [[]|]; simpl in Est; try discriminate.
    apply String.eqb_eq in Est. now subst.
  - unfold or_default in H. rewrite H. reflexivity.
Qed.

Lemma offline_or_unplaced_entry_skipped_witness :
  extract_entry (VDict [("status", VStr "maintenance"); ("technologies", VInt 3)]) None
    = Ok None /\
  extract_entry (VDict [("status", VStr "online"); ("locations", VList []);
                        ("technologies", VInt 3)]) (Some "x") = Ok None.
Proof.
  split; apply offline_or_unplaced_entry_skipped;
    [left; discriminate | right; reflexivity].
Defined.

Lemma extract_entry_not_dict s cf :
  not_dict s -> extract_entry s cf = Err AttributeError.
Proof.
  intros H. destruct s; try reflexivity. now destruct (H d).
Qed.


(** X4.  One raw entry that is not a JSON object makes the whole
    extraction raise [AttributeError] as soon as the loop reaches it,
    whatever follows and whatever was kept before. *)
Theorem malformed_entry_aborts_extraction :
  forall pre s post cf kept,
    extract_loop pre cf = Ok kept -> not_dict s ->
    extract_wireguard_servers (pre ++ s :: post) cf = Err AttributeError.
Proof.
  intros pre s post cf kept Hpre Hs. unfold extract_wireguard_servers.
  rewrite (extract_loop_app _ _ _ _ Hpre). simpl.
  now rewrite (extract_entry_not_dict _ _ Hs).
Qed.

Lemma malformed_entry_aborts_extraction_witness :
  extract_wireguard_servers
    [sample_entry "online" "lt1" "Lithuania" "K1"; VStr "oops";
     sample_entry "online" "de1" "Germany" "K2"] None
  = Err AttributeError.
Proof.
  apply (malformed_entry_aborts_extraction
           [sample_entry "online" "lt1" "Lithuania" "K1"] (VStr "oops")
           [sample_entry "online" "de1" "Germany" "K2"] None _ eq_refl).
  intros d. discriminate.
Defined.

Lemma dict_without_eq_str field lit v :
  dict_without field lit v ->
  exists x, Py.get v field VNone = Ok x /\ Py.eq_str x lit = false.
Proof.
  intros (d & -> & H). simpl. eexists. split; [reflexivity|].
  destruct (Py.lookup field d) as [[| | | | s | |]|]; try reflexivity.
  simpl. apply String.eqb_neq. intros ->. now apply H.
Qed.

Lemma find_wg_tech_first pre t post :
  Forall (dict_without "identifier" "wireguard_udp") pre ->
  Py.lookup "identifier" t = Some (VStr "wireguard_udp") ->
  find_wg_tech (pre ++ VDict t :: post) = Ok (Some (VDict t)).
Proof.
  intros Hpre Ht. induction Hpre as [|x pre Hx _ IH].
  - simpl. now rewrite Ht.
  - destruct (dict_without_eq_str _ _ _ Hx) as (i & Hg & He).
    cbn [app find_wg_tech]. rewrite Hg. cbn [rbind]. now rewrite He.
Qed.

Lemma find_public_key_first pre md post :
  Forall (dict_without "name" "public_key") pre ->
  Py.lookup "name" md = Some (VStr "public_key") ->
  find_public_key (pre ++ VDict md :: post)
  = Ok (or_default (Py.lookup "value" md) VNone).
Proof.
  intros Hpre Hmd. induction Hpre as [|x pre Hx _ IH].
  - simpl. now rewrite Hmd.
  - destruct (dict_without_eq_str _ _ _ Hx) as (i & Hg & He).
    cbn [app find_public_key]. rewrite Hg. cbn [rbind]. now rewrite He.
Qed.

Lemma find_public_key_none mds :
  Forall (dict_without "name" "public_key") mds -> find_public_key mds = Ok VNone.
Proof.
  induction 1 as [|x mds Hx _ IH]; [reflexivity|].
  destruct (dict_without_eq_str _ _ _ Hx) as (i & Hg & He).
  cbn [find_public_key]. rewrite Hg. cbn [rbind]. now rewrite He.
Qed.

(** The loop body on an entry of the expected shape whose first
    WireGuard technology is [t], whatever key [t] gives. *)
Lemma extract_entry_by_first_tech d loc rest c ci cf pre t post mds pk :
  Py.lookup "status" d = Some (VStr "online") ->
  Py.lookup "locations" d = Some (VList (VDict loc :: rest)) ->
  Py.get (VDict loc) "country" (VDict []) = Ok (VDict c) ->
  Py.get (VDict c) "city" (VDict []) = Ok (VDict ci) ->
  Py.lookup "technologies" d = Some (VList (pre ++ VDict t :: post)) ->
  Forall (dict_without "identifier" "wireguard_udp") pre ->
  Py.lookup "identifier" t = Some (VStr "wireguard_udp") ->
  Py.lookup "metadata" t = Some (VList mds) ->
  find_public_key mds = Ok pk ->
  let country := or_default (Py.lookup "name" c) (VStr "Unknown") in
  let city := or_default (Py.lookup "name" ci) (VStr "") in
  extract_entry (VDict d) cf =
  (let? skip := country_rejected cf country in
   Ok (if skip then None
       else if Py.truthy pk then Some (record_of d country city pk) else None))%result.
Proof.
  intros Hst Hloc Hc Hci Htech Hpre Ht Hmeta Hpk country city.
  subst country city. unfold extract_entry, record_of, or_default.
  cbn [Py.get rbind]. rewrite Hst, Hloc.
  cbn [Py.eq_str String.eqb Ascii.eqb Bool.eqb negb Py.truthy Py.item0 rbind Py.get].
  cbn [Py.get] in Hc, Hci. injection Hc as Hc. injection Hci as Hci.
  rewrite Hc. cbn [rbind Py.get]. rewrite Hci. cbn [rbind Py.get].
  destruct (country_rejected cf _) as [[|]|]; cbn [rbind]; try reflexivity.
  rewrite Htech. cbn [Py.iter rbind]. rewrite (find_wg_tech_first _ _ _ Hpre Ht).
  cbn [rbind]. assert (Py.truthy (VDict t) = true) as ->.
  { destruct t; [discriminate Ht | reflexivity]. }
  cbn [negb Py.get rbind]. rewrite Hmeta. cbn [Py.iter rbind]. rewrite Hpk.
  cbn [rbind]. destruct (Py.truthy pk); reflexivity.
Qed.

(** X5.  Only the first technology with identifier ["wireguard_udp"]
    and, in it, only the first metadata entry named ["public_key"] are
    consulted: the server gets that value as its key, and when that
    value is missing or empty the entry is skipped, whatever later
    technologies or metadata entries offer. *)
Theorem first_wireguard_key_decides :
  forall d loc rest c ci cf pre t post,
    Py.lookup "status" d = Some (VStr "online") ->
    Py.lookup "locations" d = Some (VList (VDict loc :: rest)) ->
    Py.get (VDict loc) "country" (VDict []) = Ok (VDict c) ->
    Py.get (VDict c) "city" (VDict []) = Ok (VDict ci) ->
    Py.lookup "technologies" d = Some (VList (pre ++ VDict t :: post)) ->
    Forall (dict_without "identifier" "wireguard_udp") pre ->
    Py.lookup "identifier" t = Some (VStr "wireguard_udp") ->
    let country := or_default (Py.lookup "name" c) (VStr "Unknown") in
    let city := or_default (Py.lookup "name" ci) (VStr "") in
    country_rejected cf country = Ok false ->
    (forall mpre md mpost,
       Py.lookup "metadata" t = Some (VList (mpre ++ VDict md :: mpost)) ->
       Forall (dict_without "name" "public_key") mpre ->
       Py.lookup "name" md = Some (VStr "public_key") ->
       let pk := or_default (Py.lookup "value" md) VNone in
       extract_entry (VDict d) cf =
       Ok (if Py.truthy pk then Some (record_of d country city pk) else None)) /\
    (forall mds,
       Py.lookup "metadata" t = Some (VList mds) ->
       Forall (dict_without "name" "public_key") mds ->
       extract_entry (VDict d) cf = Ok None).
Proof.
  intros d loc rest c ci cf pre t post Hst Hloc Hc Hci Htech Hpre Ht country city Hcf.
  split.
  - intros mpre md mpost Hmeta Hmpre Hmd pk.
    rewrite (extract_entry_by_first_tech d loc rest c ci cf pre t post _ pk
               Hst Hloc Hc Hci Htech Hpre Ht Hmeta
               (find_public_key_first _ _ _ Hmpre Hmd)).
    fold country. rewrite Hcf. reflexivity.
  - intros mds Hmeta Hmds.
    rewrite (extract_entry_by_first_tech d loc rest c ci cf pre t post _ VNone
               Hst Hloc Hc Hci Htech Hpre Ht Hmeta (find_public_key_none _ Hmds)).
    fold country. rewrite Hcf. reflexivity.
Qed.

Lemma first_wireguard_key_decides_witness :
  (exists r, extract_entry (VDict (sample_two_keys "FIRST" "SECOND")) None = Ok (Some r) /\
             public_key r = VStr "FIRST") /\
  extract_entry (VDict (sample_two_keys "" "SECOND")) None = Ok None.
Proof.
  split.
  - eexists. split.
    + apply (proj1 (first_wireguard_key_decides (sample_two_keys "FIRST" "SECOND")
                      [] [] [] [] None [] (sample_keyed "FIRST") [VDict (sample_keyed "SECOND")]
                      eq_refl eq_refl eq_refl eq_refl eq_refl (Forall_nil _) eq_refl eq_refl)
               [] [("name", VStr "public_key"); ("value", VStr "FIRST")] []
               eq_refl (Forall_nil _) eq_refl).
    + reflexivity.
  - apply (proj1 (first_wireguard_key_decides (sample_two_keys "" "SECOND")
                    [] [] [] [] None [] (sample_keyed "") [VDict (sample_keyed "SECOND")]
                    eq_refl eq_refl eq_refl eq_refl eq_refl (Forall_nil _) eq_refl eq_refl)
             [] [("name", VStr "public_key"); ("value", VStr "")] []
             eq_refl (Forall_nil _) eq_refl).
Defined.

Lemma country_rejected_matches f c b :
  f <> "" -> country_rejected (Some f) c = Ok b ->
  forall r, country r = c -> matches_filter f r = negb b.
Proof.
  intros Hf H r <-. unfold country_rejected in H.
  destruct (String.eqb_spec f ""); [contradiction|].
  unfold matches_filter. destruct (country r); simpl in H; try discriminate.
  injection H as <-. now rewrite negb_involutive.
Qed.

(** One entry under a filter and under none. *)
Lemma extract_entry_filtered s f o1 o2 :
  f <> "" ->
  extract_entry s (Some f) = Ok o1 -> extract_entry s None = Ok o2 ->
  o1 = match o2 with
       | Some r => if matches_filter f r then Some r else None
       | None => None
       end.
Proof.
  intros Hf. unfold extract_entry. intros H1 H2.
  repeat lazymatch type of H1 with
    | rbind (country_rejected _ _) _ = _ => fail
    | _ => rstep H1; cbn [rbind negb] in H2;
           try (injection H1 as <-; injection H2 as <-; reflexivity)
    end.
  cbn [country_rejected rbind] in H2.
  destruct (country_rejected (Some f) _) as [skip|] eqn:Ec; cbn [rbind] in H1;
    [|discriminate H1].
  destruct skip.
  - injection H1 as <-.
    repeat (rstep H2; try discriminate H2;
            try (injection H2 as <-; reflexivity)).
    injection H2 as <-.
    match goal with |- context [matches_filter f ?r] =>
      now rewrite (country_rejected_matches f _ true Hf Ec r eq_refl) end.
  - repeat (rstep H1; cbn [rbind negb] in H2;
            try (injection H1 as <-; injection H2 as <-; reflexivity)).
    injection H1 as <-. injection H2 as <-.
    match goal with |- context [matches_filter f ?r] =>
      now rewrite (country_rejected_matches f _ false Hf Ec r eq_refl) end.
Qed.

Lemma extract_loop_filtered f : forall all_servers k1 k2,
  f <> "" ->
  extract_loop all_servers (Some f) = Ok k1 ->
  extract_loop all_servers None = Ok k2 ->
  k1 = filter (matches_filter f) k2.
Proof.
  induction all_servers as [|s rest IH]; simpl; intros k1 k2 Hf H1 H2.
  - injection H1 as <-. now injection H2 as <-.
  - destruct (extract_entry s (Some f)) as [o1|] eqn:E1; simpl in H1; try discriminate.
    destruct (extract_entry s None) as [o2|] eqn:E2; simpl in H2; try discriminate.
    destruct (extract_loop rest (Some f)) as [l1|] eqn:L1; simpl in H1; try discriminate.
    destruct (extract_loop rest None) as [l2|] eqn:L2; simpl in H2; try discriminate.
    injection H1 as <-. injection H2 as <-.
    rewrite (extract_entry_filtered s f o1 o2 Hf E1 E2), (IH l1 l2 Hf eq_refl eq_refl).
    destruct o2 as [r|]; [|reflexivity]. simpl.
    now destruct (matches_filter f r).
Qed.

Lemma permutation_filter {A} (p : A -> bool) l l' :
  Permutation l l' -> Permutation (filter p l) (filter p l').
Proof.
  induction 1 as [|x l l' _ IH|x y l|l l' l'' _ IH1 _ IH2]; simpl.
  - constructor.
  - destruct (p x); [now constructor | exact IH].
  - destruct (p x), (p y); try apply Permutation_refl. apply perm_swap.
  - eapply Permutation_trans; eassumption.
Qed.

Lemma extract_empty_filter all_servers :
  extract_wireguard_servers all_servers (Some "")
  = extract_wireguard_servers all_servers None.
Proof.
  unfold extract_wireguard_servers. f_equal.
  induction all_servers as [|s rest IH]; simpl; [reflexivity|]. now rewrite IH.
Qed.

(** X6.  Filtering by country only selects: when the listing returns
    both with the filter and without it, the filtered listing holds, up
    to order, exactly the servers of the full listing whose country name
    contains the filter up to case.  The empty filter is no filter. *)
Theorem filter_selects_from_full_listing :
  (forall all_servers f l1 l2,
     f <> "" ->
     extract_wireguard_servers all_servers (Some f) = Ok l1 ->
     extract_wireguard_servers all_servers None = Ok l2 ->
     Permutation l1 (filter (matches_filter f) l2)) /\
  (forall all_servers,
     extract_wireguard_servers all_servers (Some "")
     = extract_wireguard_servers all_servers None).
Proof.
  split; [|exact extract_empty_filter].
  intros all_servers f l1 l2 Hf H1 H2.
  apply extract_split in H1 as (k1 & Hk1 & Hs1).
  apply extract_split in H2 as (k2 & Hk2 & Hs2).
  apply sort_servers_perm in Hs1, Hs2.
  rewrite (extract_loop_filtered f _ _ _ Hf Hk1 Hk2) in Hs1.
  eapply Permutation_trans; [apply Permutation_sym, Hs1|].
  now apply permutation_filter.
Qed.

Lemma filter_selects_from_full_listing_witness :
  exists l1 l2,
    extract_wireguard_servers sample_raw (Some "GER") = Ok l1 /\
    extract_wireguard_servers sample_raw None = Ok l2 /\
    length l1 = 2%nat /\ length l2 = 3%nat /\
    Permutation l1 (filter (matches_filter "GER") l2).
Proof.
  do 2 eexists. split; [vm_compute; reflexivity|].
  split; [vm_compute; reflexivity|]. split; [reflexivity|]. split; [reflexivity|].
  apply (proj1 filter_selects_from_full_listing sample_raw "GER");
    [discriminate | vm_compute; reflexivity | vm_compute; reflexivity].
Defined.

Lemma extract_loop_length : forall all_servers cf kept,
  extract_loop all_servers cf = Ok kept -> (length kept <= length all_servers)%nat.
Proof.
  induction all_servers as [|s rest IH]; simpl; intros cf kept H.
  - injection H as <-. constructor.
  - destruct (extract_entry s cf) as [o|]; simpl in H; try discriminate.
    destruct (extract_loop rest cf) as [l|] eqn:E; simpl in H; try discriminate.
    injection H as <-. specialize (IH cf l E). destruct o; simpl; lia.
Qed.

(** X7.  Sorting neither loses nor repeats a server: the result is a
    rearrangement of the servers the loop kept, so it never holds more
    servers than there were raw entries. *)
Theorem extract_rearranges_kept_servers :
  forall all_servers cf servers,
    extract_wireguard_servers all_servers cf = Ok servers ->
    exists kept,
      extract_loop all_servers cf = Ok kept /\
      Permutation kept servers /\
      length servers = length kept /\
      (length servers <= length all_servers)%nat.
Proof.
  intros all_servers cf l H.
  apply extract_split in H as (kept & Hloop & Hsort).
  apply sort_servers_perm in Hsort. exists kept.
  pose proof (Permutation_length Hsort) as Hlen.
  pose proof (extract_loop_length _ _ _ Hloop).
  repeat split; try assumption; lia.
Qed.

Lemma extract_rearranges_kept_servers_witness :
  exists servers kept,
    extract_wireguard_servers sample_raw None = Ok servers /\
    extract_loop sample_raw None = Ok kept /\
    map name kept = [VStr "lt1"; VStr "de2"; VStr "de1"] /\
    Permutation kept servers.
Proof.
  destruct (extract_rearranges_kept_servers sample_raw None _ eq_refl)
    as (kept & Hk & Hp & _).
  do 2 eexists. split; [reflexivity|]. split; [exact Hk|]. split; [|exact Hp].
  vm_compute in Hk. injection Hk as <-. reflexivity.
Defined.

(** X8.  A kept server carries the entry's [id], [name], [hostname] and
    [load], and its [ip] is the entry's [station]; a field the entry
    lacks is [None]. *)
Theorem kept_server_copies_entry_fields :
  forall s cf r,
    extract_entry s cf = Ok (Some r) ->
    exists d, s = VDict d /\
      id r = or_default (Py.lookup "id" d) VNone /\
      name r = or_default (Py.lookup "name" d) VNone /\
      hostname r = or_default (Py.lookup "hostname" d) VNone /\
      ip r = or_default (Py.lookup "station" d) VNone /\
      load r = or_default (Py.lookup "load" d) VNone.
Proof.
  intros s cf r H. unfold extract_entry in H.
  destruct s as [| | | | | | d]; try discriminate H. exists d. split; [reflexivity|].
  repeat (rstep H; try discriminate H).
  injection H as <-. cbn [id name hostname ip load].
  repeat match goal with
    | E : Py.get (VDict d) _ VNone = Ok _ |- _ => cbn [Py.get] in E; injection E as <-
    end.
  repeat split; reflexivity.
Qed.

Lemma kept_server_copies_entry_fields_witness :
  exists r, extract_entry (VDict sample_bare) None = Ok (Some r) /\
            ip r = VNone /\ name r = VNone /\ load r = VNone.
Proof.
  eexists. split; [reflexivity|].
  destruct (kept_server_copies_entry_fields (VDict sample_bare) None _ eq_refl)
    as (d & Hd & _ & Hn & _ & Hip & Hl).
  injection Hd as <-. now rewrite Hip, Hn, Hl.
Defined.

Lemma sort_insert_last x : forall sorted,
  Forall (fun y => not_before y x) sorted ->
  sort_insert x sorted = Ok (sorted ++ [x])%list.
Proof.
  induction 1 as [|y sorted Hy _ IH]; simpl; [reflexivity|].
  unfold not_before in Hy. rewrite Hy. simpl. now rewrite IH.
Qed.

Lemma strongly_sorted_before {A} (R : A -> A -> Prop) l1 : forall x l2,
  StronglySorted R (l1 ++ x :: l2) -> Forall (fun y => R y x) l1.
Proof.
  induction l1 as [|y l1 IH]; intros x l2 H; [constructor|].
  simpl in H. inversion H as [|? ? Hs Hall]; subst. constructor.
  - rewrite Forall_forall in Hall. apply Hall. apply in_or_app. right. now left.
  - eapply IH, Hs.
Qed.

Lemma sort_from_in_order : forall todo sorted,
  StronglySorted not_before (sorted ++ todo) ->
  sort_from sorted todo = Ok (sorted ++ todo)%list.
Proof.
  induction todo as [|x rest IH]; intros sorted H; simpl.
  - now rewrite app_nil_r.
  - rewrite (sort_insert_last x sorted (strongly_sorted_before _ _ _ _ H)). simpl.
    rewrite IH; rewrite <- app_assoc; [reflexivity | exact H].
Qed.

(** X9.  Servers that come in key order already, ties included, leave
    the sort in the order they came in: the sort is stable on them and
    raises nothing. *)
Theorem sort_keeps_ordered_input :
  forall servers,
    StronglySorted not_before servers -> sort_servers servers = Ok servers.
Proof. intros servers H. now apply (sort_from_in_order servers []). Qed.

Lemma sort_keeps_ordered_input_witness :
  let tie1 := mkServer (VInt 1) (VStr "de1") (VStr "first") VNone VNone
                       (VStr "Germany") (VStr "") (VStr "A") in
  let tie2 := mkServer (VInt 2) (VStr "de1") (VStr "second") VNone VNone
                       (VStr "Germany") (VStr "") (VStr "B") in
  sort_servers [tie1; tie2; sample_server "de2"] = Ok [tie1; tie2; sample_server "de2"].
Proof.
  cbv zeta. apply sort_keeps_ordered_input.
  repeat constructor.
Defined.

(** *** [fetch_servers] *)

Lemma fetch_servers_unfold cf w r :
  net w SERVERS_URL None = Some r ->
  fetch_servers cf w =
  let w1 := emit (HttpGet SERVERS_URL None) w in
  if http_error (status_code r) then (Raised HTTPError, w1)
  else match json_body r with
       | None => (Raised JSONDecodeError, w1)
       | Some data =>
           match Py.iter data with
           | Err e => (Raised e, w1)
           | Ok all_servers =>
               match extract_wireguard_servers all_servers cf with
               | Ok servers => (Returned servers, w1)
               | Err e => (Raised e, w1)
               end
           end
       end.
Proof.
  intros Hnet. unfold fetch_servers, bind, requests_get. rewrite Hnet. cbv zeta.
  unfold raise_for_status, http_error.
  destruct ((400 <=? status_code r) && (status_code r <? 600)); [reflexivity|].
  unfold ret, json. destruct (json_body r) as [data|]; [|reflexivity].
  unfold ret. destruct (Py.iter data) as [l|e]; [|reflexivity].
  simpl. now destruct (extract_wireguard_servers l cf).
Qed.

(** X10.  [fetch_servers] sends one request, without credentials, and
    says nothing on the terminal.  Any client or server error status,
    401 included, ends it with [HTTPError]; a body that is no JSON with
    [JSONDecodeError]; a JSON object with entries with
    [AttributeError]; on a JSON array it returns what
    [extract_wireguard_servers] makes of the array.  It never calls
    [sys.exit]. *)
Theorem fetch_servers_outcomes :
  forall cf w r o w',
    net w SERVERS_URL None = Some r ->
    fetch_servers cf w = (o, w') ->
    w' = emit (HttpGet SERVERS_URL None) w /\
    (forall c, o <> Exited c) /\
    (http_error (status_code r) = true -> o = Raised HTTPError) /\
    (http_error (status_code r) = false -> json_body r = None ->
       o = Raised JSONDecodeError) /\
    (forall k v d, http_error (status_code r) = false ->
       json_body r = Some (VDict ((k, v) :: d)) -> o = Raised AttributeError) /\
    (forall all_servers, http_error (status_code r) = false ->
       json_body r = Some (VList all_servers) ->
       o = fst (lift (extract_wireguard_servers all_servers cf) w)).
Proof.
  intros cf w r o w' Hnet H.
  rewrite (fetch_servers_unfold _ _ _ Hnet) in H. cbv zeta in H.
  destruct (http_error (status_code r)) eqn:Eerr.
  { injection H as <- <-. repeat split; try discriminate; intros; discriminate. }
  destruct (json_body r) as [data|] eqn:Ed.
  2:{ injection H as <- <-. repeat split; try discriminate; intros; discriminate. }
  destruct (Py.iter data) as [l|e] eqn:Ei.
  2:{ injection H as <- <-. repeat split; try discriminate; try (intros; discriminate).
      - intros k v d _ Hd. injection Hd as ->. discriminate Ei.
      - intros l _ Hd. injection Hd as ->. discriminate Ei. }
  destruct (extract_wireguard_servers l cf) as [servers|e] eqn:Ex;
    injection H as <- <-; repeat split; try discriminate; try (intros; discriminate).
  - intros k v d _ Hd. injection Hd as ->. simpl in Ei. injection Ei as <-.
    discriminate Ex.
  - intros l' _ Hd. injection Hd as ->. simpl in Ei. injection Ei as <-.
    now rewrite Ex.
  - intros k v d _ Hd. injection Hd as ->. simpl in Ei. injection Ei as <-.
    simpl in Ex. injection Ex as <-. reflexivity.
  - intros l' _ Hd. injection Hd as ->. simpl in Ei. injection Ei as <-.
    now rewrite Ex.
Qed.

(** A listing of one Lithuanian server, and a service that answers 401. *)
Lemma fetch_servers_outcomes_witness :
  let w := mkWorld None [] [] sample_net [] in
  let denied := mkWorld None [] [] (fun _ _ => Some (mkResponse 401 None)) [] in
  (exists servers,
     fetch_servers (Some "lith") w = (Returned servers, emit list_request w) /\
     map name servers = [VStr "lt1"]) /\
  fst (fetch_servers None denied) = Raised HTTPError.
Proof.
  cbv zeta. split; [eexists; split; vm_compute; reflexivity|].
  destruct (fetch_servers_outcomes None
              (mkWorld None [] [] (fun _ _ => Some (mkResponse 401 None)) [])
              (mkResponse 401 None) _ _ eq_refl eq_refl) as (_ & _ & Herr & _).
  exact (Herr eq_refl).
Defined.

(** *** [choose_server] *)

Lemma bind_returned {A B} (m : M A) (f : A -> M B) w b w' :
  bind m f w = (Returned b, w') ->
  exists a w1, m w = (Returned a, w1) /\ f a w1 = (Returned b, w').
Proof.
  unfold bind. destruct (m w) as [[a|e|c] w1]; try discriminate.
  intros H. now exists a, w1.
Qed.

Lemma select_loop_member to_show : forall lines tr s rest tr',
  select_loop to_show lines tr = (Returned s, rest, tr') -> In s to_show.
Proof.
  induction lines as [|line lines IH]; intros tr s rest tr' H; simpl in H;
    [discriminate|].
  destruct (PyStr.to_int (PyStr.strip line)) as [c|]; [|eapply IH, H].
  destruct ((1 <=? c) && (c <=? Z.of_nat (length to_show))); [|eapply IH, H].
  destruct (nth_error to_show (Z.to_nat (c - 1))) as [x|] eqn:E; [|discriminate].
  injection H as <- _ _. eapply nth_error_In, E.
Qed.

Lemma slice_to_incl {A} (l : list A) n x : In x (Py.slice_to l n) -> In x l.
Proof.
  unfold Py.slice_to. intros H.
  assert (Hf : forall k, In x (firstn k l) -> In x l).
  { intros k Hk. rewrite <- (firstn_skipn k l). apply in_or_app. now left. }
  destruct (0 <=? n); eapply Hf, H.
Qed.

Lemma choose_server_member servers m w s w' :
  choose_server servers m w = (Returned s, w') ->
  In s (Py.slice_to servers m).
Proof.
  intros H.
  unfold choose_server in H. destruct servers as [|s0 servers]; [discriminate H|].
  repeat match type of H with
    | bind _ _ _ = _ => apply bind_returned in H as (? & ? & _ & H)
    end.
  unfold select_server in H.
  destruct (select_loop _ (stdin _) (trace _)) as [[o rest] tr] eqn:E.
  injection H as -> _. eapply select_loop_member, E.
Qed.

(** X11.  A server [choose_server] returns is one it displayed, hence
    one of the servers it was given. *)
Theorem chosen_server_was_displayed :
  forall servers m w s w',
    choose_server servers m w = (Returned s, w') ->
    In s (Py.slice_to servers m) /\ In s servers.
Proof.
  intros servers m w s w' H.
  pose proof (choose_server_member _ _ _ _ _ H) as Hin.
  split; [exact Hin | eapply slice_to_incl, Hin].
Qed.

(** Three servers, a cap of two, and the answers "3" (turned down) and "2". *)
Lemma chosen_server_was_displayed_witness :
  let servers := [sample_server "de1"; sample_server "de2"; sample_server "de3"] in
  let w := mkWorld None [] ["3"; "2"] (fun _ _ => None) [] in
  fst (choose_server servers 2 w) = Returned (sample_server "de2") /\
  In (sample_server "de2") (Py.slice_to servers 2) /\
  In (sample_server "de2") servers.
Proof.
  cbv zeta. split; [vm_compute; reflexivity|].
  eapply (chosen_server_was_displayed
            [sample_server "de1"; sample_server "de2"; sample_server "de3"] 2
            (mkWorld None [] ["3"; "2"] (fun _ _ => None) [])).
  vm_compute. reflexivity.
Defined.

Lemma rejected_by_empty_display line : rejected [] line.
Proof.
  unfold rejected. destruct (PyStr.to_int (PyStr.strip line)); [simpl; lia | exact I].
Qed.

(** X12.  When the display is empty although there are servers (a cap
    of 0, or a negative cap that reaches past the first server), no
    answer is accepted: every line of standard input is read and turned
    down, and [choose_server] ends with [EOFError] without a server. *)
Theorem empty_display_accepts_nothing :
  forall servers m w,
    servers <> [] -> Py.slice_to servers m = [] ->
    choose_server servers m w =
    (Raised EOFError,
     with_stdin []
       (extend (table_events servers m [] ++ retry_events [] (stdin w)
                ++ [Prompt "Select server [1-0]: "]) w)).
Proof.
  intros servers m w Hne Hs.
  rewrite (choose_server_displays servers m [] w Hne) by now rewrite Hs.
  rewrite Hs. unfold select_server, extend. cbn [stdin trace environ tty net disk].
  rewrite <- (app_nil_r (stdin w)) at 1.
  rewrite select_loop_skips
    by (apply Forall_forall; intros; apply rejected_by_empty_display).
  unfold with_stdin. simpl. now rewrite <- !app_assoc.
Qed.

Lemma empty_display_accepts_nothing_witness :
  let w := mkWorld None [] ["1"; "0"] (fun _ _ => None) [] in
  fst (choose_server [sample_server "de1"; sample_server "de2"] 0 w) = Raised EOFError /\
  fst (choose_server [sample_server "de1"; sample_server "de2"] (-2) w) = Raised EOFError.
Proof.
  cbv zeta. split.
  - rewrite (empty_display_accepts_nothing [sample_server "de1"; sample_server "de2"] 0);
      [reflexivity | discriminate | reflexivity].
  - rewrite (empty_display_accepts_nothing [sample_server "de1"; sample_server "de2"] (-2));
      [reflexivity | discriminate | reflexivity].
Defined.

(** X13.  For a cap that is not negative the display is the first
    [max_to_show] servers, all of them when the cap reaches the number
    of servers; [choose_server] prints one row for each, in list order,
    and an accepted answer returns the server of that row. *)
Theorem cap_shows_first_entries :
  forall servers m,
    0 <= m ->
    Py.slice_to servers m = firstn (Z.to_nat m) servers /\
    (Z.of_nat (length servers) <= m -> Py.slice_to servers m = servers) /\
    (forall rows line rest s w,
       servers <> [] ->
       table_rows 1 (firstn (Z.to_nat m) servers) = Ok rows ->
       stdin w = line :: rest ->
       accepted (firstn (Z.to_nat m) servers) line s ->
       length rows = Nat.min (Z.to_nat m) (length servers) /\
       choose_server servers m w =
       (Returned s,
        with_stdin rest
          (extend (table_events servers m rows
                   ++ [Prompt (select_prompt (firstn (Z.to_nat m) servers))]) w))).
Proof.
  intros servers m Hm. split; [now apply slice_to_nonneg|]. split.
  - intros Hlen. rewrite (slice_to_nonneg _ _ Hm). apply firstn_all2. lia.
  - intros rows line rest s w Hne Hrows Hin Hacc. split.
    + rewrite <- (length_firstn (Z.to_nat m) servers).
      clear - Hrows. revert rows Hrows. generalize 1%nat.
      induction (firstn (Z.to_nat m) servers) as [|x l IH]; intros idx rows H; simpl in H.
      * now injection H as <-.
      * destruct (table_row idx x); simpl in H; try discriminate.
        destruct (table_rows (S idx) l) as [rs|] eqn:E; simpl in H; try discriminate.
        injection H as <-. simpl. f_equal. eapply IH, E.
    + now apply (choose_server_first_entries servers m rows line rest s w).
Qed.

Lemma cap_shows_first_entries_witness :
  let servers := [sample_server "de1"; sample_server "de2"; sample_server "de3"] in
  let w := mkWorld None [] [" 2 "] (fun _ _ => None) [] in
  Py.slice_to servers 2 = [sample_server "de1"; sample_server "de2"] /\
  Py.slice_to servers 50 = servers /\
  fst (choose_server servers 2 w) = Returned (sample_server "de2").
Proof.
  cbv zeta.
  destruct (cap_shows_first_entries
              [sample_server "de1"; sample_server "de2"; sample_server "de3"] 2 ltac:(lia))
    as (Hs & _ & Hrun).
  destruct (cap_shows_first_entries
              [sample_server "de1"; sample_server "de2"; sample_server "de3"] 50 ltac:(lia))
    as (_ & Hall & _).
  split; [exact Hs|]. split; [apply Hall; simpl; lia|].
  destruct (Hrun _ " 2 " [] (sample_server "de2")
              (mkWorld None [] [" 2 "] (fun _ _ => None) [])
              ltac:(discriminate) eq_refl eq_refl) as [_ ->]; [|reflexivity].
  exists 2. repeat split; simpl; lia.
Defined.






Lemma digits_string_of_uint d : forall acc,
  PyStr.digits (NilEmpty.string_of_uint d) acc true = Some (decimal_value d acc).
Proof.
  induction d; intros acc; simpl; try reflexivity;
    rewrite IHd; f_equal; f_equal; unfold PyStr.digit_val; simpl; lia.
Qed.

Lemma digits_string_of_uint_start d :
  d <> Decimal.Nil ->
  PyStr.digits (NilEmpty.string_of_uint d) 0 false = Some (decimal_value d 0).
Proof.
  destruct d; intros H; try contradiction; simpl;
    rewrite digits_string_of_uint; reflexivity.
Qed.

Lemma decimal_value_acc d : forall acc,
  Z.pos (Pos.of_uint_acc d acc) = decimal_value d (Z.pos acc).
Proof.
  induction d; intros acc; cbn [Pos.of_uint_acc decimal_value];
    try reflexivity; rewrite IHd; f_equal; lia.
Qed.

Lemma decimal_value_of_uint d : Z.of_N (Pos.of_uint d) = decimal_value d 0.
Proof.
  induction d; cbn [Pos.of_uint decimal_value]; try reflexivity; try exact IHd;
    cbn [Z.of_N]; rewrite decimal_value_acc; reflexivity.
Qed.

Lemma decimal_value_to_uint p : decimal_value (Pos.to_uint p) 0 = Z.pos p.
Proof.
  rewrite <- decimal_value_of_uint, DecimalPos.Unsigned.of_to. reflexivity.
Qed.

Lemma string_of_uint_free (q : ascii -> bool) d :
  (forall c, PyStr.is_digit c = true -> q c = false) ->
  free_of q (NilEmpty.string_of_uint d) = true.
Proof.
  intros Hq. induction d; simpl; try reflexivity; rewrite IHd, Hq; reflexivity.
Qed.

Lemma digit_no_space c : PyStr.is_digit c = true -> PyStr.is_space c = false.
Proof. unfold PyStr.is_digit, PyStr.is_space. cbv zeta. ncases. Qed.

Lemma digit_no_int_space c : PyStr.is_digit c = true -> PyStr.is_int_space c = false.
Proof. unfold PyStr.is_digit, PyStr.is_int_space. cbv zeta. ncases. Qed.

Lemma strip_numeral d :
  PyStr.strip (NilEmpty.string_of_uint d) = NilEmpty.string_of_uint d.
Proof.
  unfold PyStr.strip.
  rewrite lstrip_by_free, rstrip_by_free;
    try reflexivity; apply string_of_uint_free, digit_no_space.
Qed.

Lemma to_int_numeral d :
  d <> Decimal.Nil ->
  PyStr.to_int (NilEmpty.string_of_uint d) = Some (decimal_value d 0).
Proof.
  intros Hd. unfold PyStr.to_int.
  rewrite lstrip_by_free, rstrip_by_free
    by (apply string_of_uint_free, digit_no_int_space).
  rewrite <- (digits_string_of_uint_start d Hd).
  destruct d; try contradiction; reflexivity.
Qed.

Lemma of_Z_pos p : PyStr.of_Z (Z.pos p) = NilEmpty.string_of_uint (Pos.to_uint p).
Proof.
  unfold PyStr.of_Z. simpl. unfold NilZero.string_of_uint.
  pose proof (DecimalPos.Unsigned.to_uint_nonnil p).
  now destruct (Pos.to_uint p).
Qed.

(** Reading back what [str] wrote for a positive number. *)
Lemma to_int_of_Z_pos p :
  PyStr.to_int (PyStr.strip (PyStr.of_Z (Z.pos p))) = Some (Z.pos p).
Proof.
  rewrite of_Z_pos, strip_numeral, to_int_numeral
    by apply DecimalPos.Unsigned.to_uint_nonnil.
  now rewrite decimal_value_to_uint.
Qed.

(** X15.  Typing the index a row of the table shows selects the server
    of that row: [int] reads back the number [str] wrote. *)
Theorem shown_index_selects_row :
  (forall p, PyStr.to_int (PyStr.strip (PyStr.of_Z (Z.pos p))) = Some (Z.pos p)) /\
  (forall to_show i s,
     nth_error to_show i = Some s ->
     accepted to_show (PyStr.of_nat (S i)) s) /\
  (forall to_show i s rest tr,
     nth_error to_show i = Some s ->
     select_loop to_show (PyStr.of_nat (S i) :: rest) tr
     = (Returned s, rest, tr ++ [Prompt (select_prompt to_show)])%list).
Proof.
  assert (Hacc : forall to_show i s,
            nth_error to_show i = Some s -> accepted to_show (PyStr.of_nat (S i)) s).
  { intros to_show i s H. exists (Z.of_nat (S i)). split; [|split].
    - unfold PyStr.of_nat. rewrite Nat2Z.inj_succ, <- Z.add_1_r.
      destruct (Z.of_nat i + 1) as [|p|p] eqn:E; try lia. apply to_int_of_Z_pos.
    - assert (i < length to_show)%nat by (apply nth_error_Some; congruence). lia.
    - replace (Z.to_nat (Z.of_nat (S i) - 1)) with i by lia. exact H. }
  split; [exact to_int_of_Z_pos|]. split; [exact Hacc|].
  intros to_show i s rest tr H. apply select_loop_accepts. now apply Hacc.
Qed.

Lemma shown_index_selects_row_witness :
  accepted [sample_server "de1"; sample_server "de2"; sample_server "de3"]
           "3" (sample_server "de3").
Proof.
  apply (proj1 (proj2 shown_index_selects_row)
           [sample_server "de1"; sample_server "de2"; sample_server "de3"] 2%nat).
  reflexivity.
Defined.

(** *** [build_wireguard_config] *)

Lemma slength_app s t : String.length (s ++ t) = (String.length s + String.length t)%nat.
Proof. induction s; simpl; congruence. Qed.

Lemma sapp_inv_tail s : forall s' t, s ++ t = s' ++ t -> s = s'.
Proof.
  induction s as [|c s IH]; intros [|c' s'] t H; simpl in H.
  - reflexivity.
  - apply (f_equal String.length) in H. simpl in H. rewrite slength_app in H. lia.
  - apply (f_equal String.length) in H. simpl in H. rewrite slength_app in H. lia.
  - injection H as -> H. f_equal. eapply IH, H.
Qed.

(** X16.  When the private key, the public key and the address hold no
    line feed, each can be read back from its line of the
    configuration: line 2 is [PrivateKey = ] and the key, line 7
    [PublicKey = ] and the server's key, line 9 [Endpoint = ] and the
    address followed by [:51820].  Two configurations are therefore
    equal only if the three values are. *)
Theorem config_fields_read_back :
  forall k s,
    one_line (Py.str k) -> one_line (Py.str (public_key s)) -> one_line (Py.str (ip s)) ->
    let ls := PyStr.split_nl (build_wireguard_config k s) in
    length ls = 11%nat /\
    field_of "PrivateKey = " (nth_error ls 1) = Some (Py.str k) /\
    field_of "PublicKey           = " (nth_error ls 6) = Some (Py.str (public_key s)) /\
    field_of "Endpoint           = " (nth_error ls 8) = Some (Py.str (ip s) ++ ":51820") /\
    (forall k' s',
       one_line (Py.str k') -> one_line (Py.str (public_key s')) ->
       one_line (Py.str (ip s')) ->
       build_wireguard_config k' s' = build_wireguard_config k s ->
       Py.str k' = Py.str k /\ Py.str (public_key s') = Py.str (public_key s) /\
       Py.str (ip s') = Py.str (ip s)).
Proof.
  intros k s HK HPK HIP ls.
  assert (Hls : forall k s,
            one_line (Py.str k) -> one_line (Py.str (public_key s)) ->
            one_line (Py.str (ip s)) ->
            PyStr.split_nl (build_wireguard_config k s)
            = expected_lines (Py.str k) (Py.str (public_key s)) (Py.str (ip s))).
  { intros k0 s0 H1 H2 H3. rewrite (config_exact k0 s0 H1 H2 H3), expected_is_lines.
    apply split_join_nl; [discriminate | now apply expected_lines_one_line]. }
  subst ls. rewrite (Hls k s HK HPK HIP). unfold expected_lines.
  cbn [length nth_error field_of].
  split; [reflexivity|].
  split; [apply (strip_prefix_app "PrivateKey = ")|].
  split; [apply (strip_prefix_app "PublicKey           = ")|].
  split; [apply (strip_prefix_app "Endpoint           = ")|].
  intros k' s' HK' HPK' HIP' Heq.
  apply (f_equal PyStr.split_nl) in Heq.
  rewrite (Hls k s HK HPK HIP), (Hls k' s' HK' HPK' HIP') in Heq.
  unfold expected_lines in Heq.
  injection Heq as H1 H2 H3.
  repeat split; try assumption.
  now apply sapp_inv_tail in H3.
Qed.

Lemma config_fields_read_back_witness :
  let ls := PyStr.split_nl (build_wireguard_config (VStr "KEY") (sample_server "de1")) in
  field_of "PrivateKey = " (nth_error ls 1) = Some "KEY" /\
  field_of "Endpoint           = " (nth_error ls 8) = Some "1.2.3.4:51820".
Proof.
  cbv zeta.
  destruct (config_fields_read_back (VStr "KEY") (sample_server "de1")
              eq_refl eq_refl eq_refl) as (_ & Hk & _ & Hip & _).
  split; [exact Hk | exact Hip].
Defined.

(** *** [main] *)

Section Silent.
Variable p : event -> bool.

Lemma filter_emit e w :
  filter p (trace (emit e w)) = (filter p (trace w) ++ (if p e then [e] else []))%list.
Proof. unfold emit. simpl. rewrite filter_app. simpl. now destruct (p e). Qed.

Lemma silent_ret {A} (a : A) : silent p (ret a).
Proof. intros w o w' H. now injection H as _ <-. Qed.

Lemma silent_raise {A} e : silent p (@raise A e).
Proof. intros w o w' H. now injection H as _ <-. Qed.

Lemma silent_sys_exit {A} c : silent p (@sys_exit A c).
Proof. intros w o w' H. now injection H as _ <-. Qed.

Lemma silent_lift {A} (r : result A) : silent p (lift r).
Proof. destruct r; [apply silent_ret | apply silent_raise]. Qed.

Lemma silent_getenv : silent p getenv.
Proof. intros w o w' H. now injection H as _ <-. Qed.

Lemma silent_raise_for_status r : silent p (raise_for_status r).
Proof.
  unfold raise_for_status. destruct (_ && _); [apply silent_raise | apply silent_ret].
Qed.

Lemma silent_json r : silent p (json r).
Proof. unfold json. destruct (json_body r); [apply silent_ret | apply silent_raise]. Qed.

Lemma silent_bind {A B} (m : M A) (f : A -> M B) :
  silent p m -> (forall a, silent p (f a)) -> silent p (bind m f).
Proof.
  intros Hm Hf w o w' H. unfold bind in H.
  destruct (m w) as [[a|e|c] w1] eqn:E.
  - rewrite (Hf a _ _ _ H). eapply Hm, E.
  - injection H as _ <-. eapply Hm, E.
  - injection H as _ <-. eapply Hm, E.
Qed.

Lemma adds_bind {A B} evs (m : M A) (f : A -> M B) :
  adds p evs m -> (forall a, silent p (f a)) -> adds p evs (bind m f).
Proof.
  intros Hm Hf w o w' H. unfold bind in H.
  destruct (m w) as [[a|e|c] w1] eqn:E.
  - rewrite (Hf a _ _ _ H). eapply Hm, E.
  - injection H as _ <-. eapply Hm, E.
  - injection H as _ <-. eapply Hm, E.
Qed.

Hypothesis p_stdout : forall s, p (Stdout s) = false.
Hypothesis p_stderr : forall s, p (Stderr s) = false.
Hypothesis p_prompt : forall s, p (Prompt s) = false.
Hypothesis p_hidden : forall s, p (HiddenPrompt s) = false.

Lemma silent_print s : silent p (print s).
Proof.
  intros w o w' H. injection H as _ <-. rewrite filter_emit, p_stdout. apply app_nil_r.
Qed.

Lemma silent_eprint s : silent p (eprint s).
Proof.
  intros w o w' H. injection H as _ <-. rewrite filter_emit, p_stderr. apply app_nil_r.
Qed.

Lemma silent_getpass s : silent p (getpass s).
Proof.
  intros w o w' H. unfold getpass in H.
  destruct (tty w); injection H as _ <-; unfold emit; cbn [trace];
    rewrite filter_app; simpl; rewrite p_hidden; apply app_nil_r.
Qed.

Lemma silent_get_token cmd_token : silent p (get_token cmd_token).
Proof.
  unfold get_token.
  repeat first
    [ apply silent_bind; [|intros ?]
    | apply silent_ret | apply silent_print | apply silent_eprint
    | apply silent_getpass | apply silent_getenv | apply silent_sys_exit
    | match goal with
      | |- silent p (if ?b then _ else _) => destruct b
      | |- silent p (match ?o with Some _ => _ | None => _ end) => destruct o
      end ].
Qed.

Lemma silent_print_table : forall to_show idx, silent p (print_table idx to_show).
Proof.
  induction to_show as [|s rest IH]; intros idx; simpl; [apply silent_ret|].
  apply silent_bind; [apply silent_lift | intros row].
  apply silent_bind; [apply silent_print | intros _]. apply IH.
Qed.

Lemma select_loop_silent to_show : forall lines tr o rest tr',
  select_loop to_show lines tr = (o, rest, tr') -> filter p tr' = filter p tr.
Proof.
  assert (Hp : forall tr, filter p (tr ++ [Prompt (select_prompt to_show)]) = filter p tr).
  { intros tr. rewrite filter_app. simpl. rewrite p_prompt. apply app_nil_r. }
  assert (Ho : forall tr s, filter p (tr ++ [Stdout s]) = filter p tr).
  { intros tr s. rewrite filter_app. simpl. rewrite p_stdout. apply app_nil_r. }
  induction lines as [|line lines IH]; intros tr o rest tr' H; simpl in H.
  - injection H as _ _ <-. apply Hp.
  - destruct (PyStr.to_int (PyStr.strip line)) as [c|].
    + destruct ((1 <=? c) && (c <=? Z.of_nat (length to_show))).
      * destruct (nth_error to_show (Z.to_nat (c - 1))); injection H as _ _ <-; apply Hp.
      * apply IH in H. now rewrite H, Ho, Hp.
    + apply IH in H. now rewrite H, Ho, Hp.
Qed.

Lemma silent_choose_server servers m : silent p (choose_server servers m).
Proof.
  unfold choose_server. destruct servers.
  - apply silent_bind; [apply silent_eprint | intros _; apply silent_sys_exit].
  - repeat (apply silent_bind; [apply silent_print | intros _]).
    apply silent_bind; [apply silent_print_table | intros _].
    apply silent_bind; [apply silent_print | intros _].
    intros w o w' H. unfold select_server in H.
    destruct (select_loop _ (stdin w) (trace w)) as [[o' rest] tr] eqn:E.
    injection H as _ <-. simpl. eapply select_loop_silent, E.
Qed.
End Silent.

Lemma adds_requests_get url auth :
  adds is_request [HttpGet url auth] (requests_get url auth).
Proof.
  intros w o w' H. unfold requests_get in H.
  destruct (net w url auth); injection H as _ <-; now rewrite filter_emit.
Qed.

Lemma adds_fetch_key token :
  adds is_request [key_request token] (fetch_nordlynx_private_key token).
Proof.
  unfold fetch_nordlynx_private_key.
  apply adds_bind; [apply adds_requests_get | intros resp].
  destruct (status_code resp =? 401).
  - apply silent_bind; [now apply silent_eprint | intros _; apply silent_sys_exit].
  - apply silent_bind; [apply silent_raise_for_status | intros _].
    apply silent_bind; [apply silent_json | intros data].
    apply silent_bind; [apply silent_lift | intros key].
    destruct (negb (Py.truthy key)); [|apply silent_ret].
    repeat (apply silent_bind; [now apply silent_eprint | intros _]).
    apply silent_sys_exit.
Qed.

Lemma adds_fetch_servers cf : adds is_request [list_request] (fetch_servers cf).
Proof.
  unfold fetch_servers.
  apply adds_bind; [apply adds_requests_get | intros resp].
  apply silent_bind; [apply silent_raise_for_status | intros _].
  apply silent_bind; [apply silent_json | intros data].
  apply silent_bind; [apply silent_lift | intros l]. apply silent_lift.
Qed.

(** X17.  In one run [main] sends at most two requests, in this order:
    the request for the private key, with the user name [token] and the
    access token as password, then the request for the server list,
    without credentials.  The list is asked for only after the key has
    come back, and nothing is sent after the list. *)
Theorem main_sends_key_request_then_list_request :
  forall a w o w',
    main a w = (o, w') ->
    requests (trace w') = requests (trace w) \/
    exists token w1,
      get_token (arg_token a) w = (Returned token, w1) /\
      (requests (trace w') = (requests (trace w) ++ [key_request token])%list \/
       requests (trace w')
         = (requests (trace w) ++ [key_request token; list_request])%list /\
       exists key w2,
         fetch_nordlynx_private_key token
           (emit (Stdout "Fetching NordLynx private key...") w1) = (Returned key, w2)).
Proof.
  intros a w o w' H. unfold main in H. unfold requests.
  assert (Hs : forall s, is_request (Stdout s) = false) by reflexivity.
  assert (He : forall s, is_request (Stderr s) = false) by reflexivity.
  assert (Hp : forall s, is_request (Prompt s) = false) by reflexivity.
  assert (Hh : forall s, is_request (HiddenPrompt s) = false) by reflexivity.
  unfold bind at 1 in H.
  destruct (get_token (arg_token a) w) as [[token|e|c] w1] eqn:E1;
    pose proof (silent_get_token is_request Hs He Hh _ _ _ _ E1) as R1;
    try (injection H as _ <-; now left).
  right. exists token, w1. split; [reflexivity|].
  unfold bind at 1 in H. unfold print at 1 in H.
  unfold bind at 1 in H.
  destruct (fetch_nordlynx_private_key token _) as [[key|e|c] w2] eqn:E2;
    pose proof (adds_fetch_key token _ _ _ E2) as R2;
    rewrite filter_emit in R2; cbn [is_request] in R2; rewrite app_nil_r, R1 in R2;
    try (injection H as _ <-; left; exact R2).
  right. split; [|now exists key, w2].
  unfold bind at 1 in H. unfold print at 1 in H.
  unfold bind at 1 in H.
  destruct (fetch_servers (arg_country a) _) as [[servers|e|c] w3] eqn:E3;
    pose proof (adds_fetch_servers _ _ _ _ E3) as R3;
    rewrite filter_emit in R3; cbn [is_request] in R3; rewrite app_nil_r, R2 in R3;
    rewrite <- app_assoc in R3;
    try (injection H as _ <-; exact R3).
  unfold bind at 1 in H.
  destruct (choose_server servers (arg_max a) w3) as [[server|e|c] w4] eqn:E4;
    pose proof (silent_choose_server is_request Hs He Hp _ _ _ _ _ E4) as R4;
    rewrite R3 in R4;
    try (injection H as _ <-; exact R4).
  cbv zeta in H. rewrite write_and_report in H.
  destruct (disk w4 _ _); injection H as _ <-; [|exact R4|];
    unfold extend; cbn [trace]; rewrite filter_app; simpl; now rewrite app_nil_r.
Qed.

Lemma main_sends_key_request_then_list_request_witness :
  let a := mkArgs (Some "tok") None 50 None in
  let w := mkWorld None [] ["1"] sample_net [] in
  exists o w',
    main a w = (o, w') /\ requests (trace w') = [key_request "tok"; list_request].
Proof.
  cbv zeta. do 2 eexists. split; [vm_compute; reflexivity|].
  destruct (main_sends_key_request_then_list_request
              (mkArgs (Some "tok") None 50 None)
              (mkWorld None [] ["1"] sample_net []) _ _ eq_refl)
    as [H | (token & w1 & Htok & [H | [H _]])]; vm_compute; reflexivity.
Defined.

(** X18.  A run of [main] that returns has written exactly one file:
    the configuration built from the fetched key and the chosen server,
    at the path given with [-o] or else at [<hostname>.conf].  The
    chosen server is one of the listed servers, and the report is
    printed after the write. *)
Theorem successful_run_writes_one_file :
  forall a w u w',
    main a w = (Returned u, w') ->
    exists token w1 key w2 servers w3 server w4,
      get_token (arg_token a) w = (Returned token, w1) /\
      fetch_nordlynx_private_key token
        (emit (Stdout "Fetching NordLynx private key...") w1) = (Returned key, w2) /\
      fetch_servers (arg_country a)
        (emit (Stdout "Fetching server list (this may take a few seconds)...") w2)
        = (Returned servers, w3) /\
      choose_server servers (arg_max a) w3 = (Returned server, w4) /\
      In server servers /\
      let written := FileWrite (output_path a server)
                       (build_wireguard_config key server) in
      w' = extend (written :: report_events (output_path a server) server) w4 /\
      writes (trace w') = (writes (trace w) ++ [written])%list.
Proof.
  intros a w u w' H. unfold main in H.
  apply bind_returned in H as (token & w1 & E1 & H).
  apply bind_returned in H as ([] & w1' & Ep1 & H). injection Ep1 as <-.
  apply bind_returned in H as (key & w2 & E2 & H).
  apply bind_returned in H as ([] & w2' & Ep2 & H). injection Ep2 as <-.
  apply bind_returned in H as (servers & w3 & E3 & H).
  apply bind_returned in H as (server & w4 & E4 & H).
  cbv zeta in H. rewrite write_and_report in H.
  destruct (disk w4 _ _); [|discriminate H|discriminate H]. injection H as _ <-.
  exists token, w1, key, w2, servers, w3, server, w4.
  repeat (split; [assumption|]).
  split; [eapply slice_to_incl, choose_server_member, E4|].
  cbv zeta. split; [reflexivity|].
  unfold extend. cbn [trace]. rewrite writes_app. f_equal.
  rewrite (quiet_choose_server _ _ _ _ _ E4), (quiet_fetch_servers _ _ _ _ E3),
    writes_emit, app_nil_r, (quiet_fetch_key _ _ _ _ E2), writes_emit, app_nil_r.
  eapply quiet_get_token, E1.
Qed.

Lemma successful_run_writes_one_file_witness :
  let w := mkWorld None [] ["1"] sample_net [] in
  exists w',
    main (mkArgs (Some "tok") (Some "lith") 50 None) w = (Returned tt, w') /\
    writes (trace w') =
      [FileWrite "lt1.nordvpn.com.conf" (expected_config "KEY" "K1" "1.2.3.4")] /\
    exists w'',
      main (mkArgs (Some "tok") (Some "lith") 50 (Some "wg0.conf")) w = (Returned tt, w'') /\
      writes (trace w'') = [FileWrite "wg0.conf" (expected_config "KEY" "K1" "1.2.3.4")].
Proof.
  cbv zeta. eexists. split; [vm_compute; reflexivity|]. split.
  - destruct (successful_run_writes_one_file
                (mkArgs (Some "tok") (Some "lith") 50 None)
                (mkWorld None [] ["1"] sample_net []) tt _ eq_refl)
      as (? & ? & ? & ? & ? & ? & ? & ? & _ & _ & _ & _ & _ & _ & _).
    vm_compute. reflexivity.
  - eexists. split; vm_compute; reflexivity.
Defined.

(** *** More edge behaviour of the extraction *)

(** X19.  A country name that is present but is no string (JSON null,
    a number) is kept as it is when no filter is given, or the empty
    one.  Under a filter that is not empty the test [country.lower()]
    raises [AttributeError] before the technologies are read, and that
    ends the whole extraction. *)
Theorem non_text_country_breaks_filter :
  forall d loc rest c ci v,
    Py.lookup "status" d = Some (VStr "online") ->
    Py.lookup "locations" d = Some (VList (VDict loc :: rest)) ->
    Py.get (VDict loc) "country" (VDict []) = Ok (VDict c) ->
    Py.get (VDict c) "city" (VDict []) = Ok (VDict ci) ->
    Py.lookup "name" c = Some v -> (forall s, v <> VStr s) ->
    let city := or_default (Py.lookup "name" ci) (VStr "") in
    (forall pk,
       passes_key_filters (VDict d) pk ->
       extract_entry (VDict d) None = Ok (Some (record_of d v city pk)) /\
       extract_entry (VDict d) (Some "") = Ok (Some (record_of d v city pk))) /\
    (forall f pre post kept,
       f <> "" -> extract_loop pre (Some f) = Ok kept ->
       extract_wireguard_servers (pre ++ VDict d :: post) (Some f) = Err AttributeError).
Proof.
  intros d loc rest c ci v Hst Hloc Hc Hci Hn Hv city. split.
  - intros pk Hkey.
    pose proof (fun cf => extract_entry_shaped d loc rest c ci pk cf Hst Hloc Hc Hci Hkey)
      as E. cbv zeta in E. rewrite Hn in E. cbn [or_default] in E.
    split; [exact (E None) | exact (E (Some ""))].
  - intros f pre post kept Hf Hpre. unfold extract_wireguard_servers.
    rewrite (extract_loop_app _ _ _ _ Hpre). cbn [extract_loop].
    assert (extract_entry (VDict d) (Some f) = Err AttributeError) as ->; [|reflexivity].
    unfold extract_entry. cbn [Py.get rbind]. rewrite Hst, Hloc.
    cbn [Py.eq_str String.eqb Ascii.eqb Bool.eqb negb Py.truthy Py.item0 rbind Py.get].
    cbn [Py.get] in Hc, Hci. injection Hc as Hc. injection Hci as Hci.
    rewrite Hc. cbn [rbind Py.get]. rewrite Hci, Hn. cbn [rbind Py.get].
    unfold country_rejected. destruct (String.eqb_spec f ""); [contradiction|].
    destruct v; try reflexivity. now destruct (Hv s).
Qed.

(** An entry whose country name is JSON null. *)
Lemma non_text_country_breaks_filter_witness :
  (exists r, extract_wireguard_servers [VDict sample_null_country] None = Ok [r] /\
             country r = VNone) /\
  extract_wireguard_servers [VDict sample_null_country] (Some "ger") = Err AttributeError.
Proof.
  split; [eexists; split; reflexivity|].
  refine (proj2 (non_text_country_breaks_filter sample_null_country
                   [("country", VDict [("name", VNone)])]
                   [] [("name", VNone)] [] VNone
                   eq_refl eq_refl eq_refl eq_refl eq_refl _)
            "ger" [] [] [] _ eq_refl); discriminate.
Defined.

(** X20.  Two kept servers of one country and one city, one with a
    name and one without, cannot be ordered: comparing the name with
    [None] raises [TypeError], in whichever order the two come, and an
    extraction that kept just these two raises with it. *)
Theorem unnamed_server_breaks_sort :
  forall a b c ci n all_servers cf kept,
    sort_key a = [VStr c; VStr ci; VStr n] ->
    sort_key b = [VStr c; VStr ci; VNone] ->
    extract_loop all_servers cf = Ok kept ->
    kept = [a; b] \/ kept = [b; a] ->
    sort_servers kept = Err TypeError /\
    extract_wireguard_servers all_servers cf = Err TypeError.
Proof.
  intros a b c ci n all_servers cf kept Ha Hb Hloop Hkept.
  assert (Hsort : sort_servers kept = Err TypeError).
  { unfold sort_servers.
    destruct Hkept as [-> | ->]; cbn [sort_from sort_insert rbind];
      unfold Py.tuple_cmp; rewrite Ha, Hb; simpl; rewrite !String.eqb_refl;
      reflexivity. }
  split; [exact Hsort|].
  unfold extract_wireguard_servers. rewrite Hloop. exact Hsort.
Qed.

(** Two German servers without a city, the second one named. *)
Lemma unnamed_server_breaks_sort_witness :
  extract_wireguard_servers
    [VDict sample_bare; VDict (("name", VStr "de1") :: sample_bare)] None
  = Err TypeError.
Proof.
  apply (proj2 (unnamed_server_breaks_sort
                  (record_of (("name", VStr "de1") :: sample_bare)
                             (VStr "Germany") (VStr "") (VStr "XYZ"))
                  (record_of sample_bare (VStr "Germany") (VStr "") (VStr "XYZ"))
                  "Germany" "" "de1"
                  [VDict sample_bare; VDict (("name", VStr "de1") :: sample_bare)] None
                  _ eq_refl eq_refl eq_refl (or_intror eq_refl))).
Defined.
